(** * J1939-Decoder: the log-to-frame pipeline of [PrepareMF4.py]

    A shallow embedding of the loop of [main] (lines 45-144 of
    [PrepareMF4.py]) and of its auxiliary functions (lines 244-267),
    followed by the properties of the log-line parser, the frame decoder,
    the identifier builder and the PGN annotator.

    Conventions of the embedding:
    - a Python [str] is a [list ascii]; [lit "..."] writes a literal;
    - a Python [int] is a [Z];
    - code that can raise returns a [Result];
    - the data frame [df] is an insertion-ordered list of labelled rows,
      a row being a finite map from column names to cells. *)

From Stdlib Require Import ZArith Ascii String List Lia.
From stdpp Require Import base option list gmap strings.

Import ListNotations.

#[local] Open Scope char_scope.

(** ** Python values *)

Abbreviation str := (list ascii).

Definition lit (s : string) : str := list_ascii_of_string s.

(** The exceptions that the modelled code can raise. *)
Inductive exn : Type :=
  | AttributeError   (* [None.group(1)] after a failed [re.search] *)
  | ValueError       (* [int(s, base)], [bytes.fromhex(s)] on a bad literal *)
  | StructError.     (* [struct.unpack] on a buffer of the wrong size *)

Inductive Result (A : Type) : Type :=
  | Ok (a : A)
  | Raise (e : exn).
Arguments Ok {A} a.
Arguments Raise {A} e.

#[global] Instance Result_ret : MRet Result := fun _ a => Ok a.
#[global] Instance Result_bind : MBind Result := fun _ _ f m =>
  match m with
  | Ok a => f a
  | Raise e => Raise e
  end.

Definition is_Raise {A} (r : Result A) : Prop := exists e, r = Raise e.

(** ** String primitives *)

Definition code (c : ascii) : Z := Z.of_N (N_of_ascii c).

(** [s[a:b]] for non-negative [a], [b] (out-of-range bounds are clipped). *)
Definition slice (s : str) (a b : nat) : str := take (b - a) (drop a s).

(** Value of a digit character in [int(s, base)]: [0-9], [A-Z], [a-z]. *)
Definition digit_val (c : ascii) : option Z :=
  let n := code c in
  if (48 <=? n)%Z && (n <=? 57)%Z then Some (n - 48)%Z
  else if (65 <=? n)%Z && (n <=? 90)%Z then Some (n - 55)%Z
  else if (97 <=? n)%Z && (n <=? 122)%Z then Some (n - 87)%Z
  else None.

Fixpoint int_digits (base : Z) (acc : Z) (s : str) : Result Z :=
  match s with
  | [] => Ok acc
  | c :: r =>
      match digit_val c with
      | Some d => if (d <? base)%Z then int_digits base (acc * base + d) r
                  else Raise ValueError
      | None => Raise ValueError
      end
  end.

(** [int(s, base)] on a run of digits of the base; the empty string and
    any other character raise [ValueError].  (Python also accepts a sign,
    surrounding blanks, underscores and a base prefix; every argument that
    the program passes is a non-empty run of characters of [0-9A-F] or of
    [01], see [int_slice] and [hexStr2binStr_spec] below, so these forms
    do not occur.) *)
Definition int (s : str) (base : Z) : Result Z :=
  match s with
  | [] => Raise ValueError
  | _ => int_digits base 0 s
  end.

Fixpoint bits_pos (p : positive) : str :=
  match p with
  | xH => ["1"]
  | xO q => bits_pos q ++ ["0"]
  | xI q => bits_pos q ++ ["1"]
  end.

(** [bin(n)] *)
Definition bin (n : Z) : str :=
  match n with
  | Z0 => lit "0b0"
  | Zpos p => lit "0b" ++ bits_pos p
  | Zneg p => lit "-0b" ++ bits_pos p
  end.

Definition is_sign (c : ascii) : bool :=
  (code c =? 43)%Z || (code c =? 45)%Z.

(** [s.zfill(width)]: zeros are added on the left (after a leading sign)
    up to [width]; a string that is already that long is returned as is. *)
Definition zfill (s : str) (width : nat) : str :=
  let fill := replicate (width - length s) "0" in
  match s with
  | c :: r => if is_sign c then c :: fill ++ r else fill ++ s
  | [] => fill
  end.

Definition hex_digit (d : Z) : ascii :=
  ascii_of_N (Z.to_N (if (d <? 10)%Z then 48 + d else 55 + d)).

Fixpoint hex_digits (fuel : nat) (n : Z) : str :=
  match fuel with
  | O => []
  | S f =>
      if (n <? 16)%Z then [hex_digit n]
      else hex_digits f (n / 16) ++ [hex_digit (n mod 16)]
  end.

(** [format(n, "X")]: upper-case hexadecimal digits of [n]. *)
Definition format_X (n : Z) : str :=
  if (n <? 0)%Z then "-" :: hex_digits (S (Z.to_nat (Z.log2 (- n)))) (- n)
  else hex_digits (S (Z.to_nat (Z.log2 n))) n.

(** ["{0:0>4X}".format(n)]: [format_X n] right-aligned in a field of
    width 4 filled with ["0"]. *)
Definition format_0gt4X (n : Z) : str :=
  let h := format_X n in replicate (4 - length h) "0" ++ h.

(** ** Auxiliary functions of the program (lines 244-267) *)

(** [hexStr2binStr], line 244:
    [bin(int(hexStr, 16))[2:].zfill(numBits)] *)
Definition hexStr2binStr (hexStr : str) (numBits : nat) : Result str :=
  n ← int hexStr 16;
  Ok (zfill (drop 2 (bin n)) numBits).

(** [binStr2HexStr], line 249: ["{0:0>4X}".format(int(binStr, 2))] *)
Definition binStr2HexStr (binStr : str) : Result str :=
  n ← int binStr 2;
  Ok (format_0gt4X n).

(** [range(0, n, 2)] *)
Definition range2 (n : nat) : list nat :=
  (fun k => 2 * k) <$> seq 0 (Nat.div2 (S n)).

Fixpoint sequenceR {A} (l : list (Result A)) : Result (list A) :=
  match l with
  | [] => Ok []
  | r :: rest => a ← r; t ← sequenceR rest; Ok (a :: t)
  end.

(** [HexStrToListOfInts], line 254. *)
Definition HexStrToListOfInts (hexStr : str) : Result (list Z) :=
  let hexs := (fun i => slice hexStr i (i + 2)) <$> range2 (length hexStr) in
  sequenceR ((fun x => int x 16) <$> hexs).

(** ** Regular expressions and string searches of the loop *)

Fixpoint prefixb (p s : str) : bool :=
  match p, s with
  | [], _ => true
  | a :: p', b :: s' => Ascii.eqb a b && prefixb p' s'
  | _ :: _, [] => false
  end.

(** [s.find(pat)]: index of the leftmost occurrence of [pat] in [s]. *)
Fixpoint find (pat s : str) {struct s} : option nat :=
  if prefixb pat s then Some 0%nat
  else match s with
       | [] => None
       | _ :: r => S <$> find pat r
       end.

(** [pat in s] *)
Definition contains (pat s : str) : bool :=
  match find pat s with Some _ => true | None => false end.

Fixpoint take_while (f : ascii -> bool) (s : str) : str :=
  match s with
  | c :: r => if f c then c :: take_while f r else []
  | [] => []
  end.

(** Character classes [[0-9]], [[0-9A-F]] and [[0-9A-F ]]. *)
Definition is_digit (c : ascii) : bool :=
  (48 <=? code c)%Z && (code c <=? 57)%Z.
Definition is_HEX (c : ascii) : bool :=
  is_digit c || (65 <=? code c)%Z && (code c <=? 70)%Z.
Definition is_HEX_or_space (c : ascii) : bool :=
  is_HEX c || Ascii.eqb c " ".

(** [re.search(pattern, line)] for a pattern made of a literal [prefix]
    and one group, a starred character class [cls] (such as the pattern
    of line 69, the literal [ID = ] and a starred [[0-9]]): the match starts at the leftmost occurrence of
    the literal, and group 1 is the longest run of [cls] characters after
    it (possibly empty).  The result is [None] when there is no match,
    [Some g] with [g] the text of group 1 otherwise. *)
Definition re_search_lit_class
    (prefix : str) (cls : ascii -> bool) (line : str) : option str :=
  k ← find prefix line;
  Some (take_while cls (drop (k + length prefix) line)).

Definition is_newline (c : ascii) : bool := (code c =? 10)%Z.

(** Greedy [.*] followed by the literal [pat], anchored at the start of
    [s]: the largest [k] such that the first [k] characters hold no
    newline and [pat] occurs at offset [k]. *)
Fixpoint greedy_dot_then (pat s : str) {struct s} : option nat :=
  let here := if prefixb pat s then Some 0%nat else None in
  match s with
  | [] => here
  | c :: r =>
      if is_newline c then here
      else match greedy_dot_then pat r with
           | Some k => Some (S k)
           | None => here
           end
  end.

(** The search of line 66: the pattern is anchored at the start of the
    line, its group is a greedy starred dot, and a blank and an opening
    parenthesis follow.  Group 1 is the text before the last such pair on
    the first line. *)
Definition re_search_timestamp (line : str) : option str :=
  k ← greedy_dot_then (lit " (") line;
  Some (take k line).

(** [m.group(1)] on the result of [re.search]: [None] has no attribute
    [group]. *)
Definition group1 (m : option str) : Result str :=
  match m with
  | Some g => Ok g
  | None => Raise AttributeError
  end.

(** [re.findall("( [0-9A-F]{2})", s)]: the non-overlapping matches, found
    from left to right. *)
Fixpoint re_findall_groups (s : str) : list str :=
  match s with
  | [] => []
  | c0 :: r =>
      match r with
      | c1 :: c2 :: r' =>
          if Ascii.eqb c0 " " && is_HEX c1 && is_HEX c2
          then [c0; c1; c2] :: re_findall_groups r'
          else re_findall_groups r
      | _ => []
      end
  end.

(** [s.replace(" ", "")] *)
Definition remove_spaces (s : str) : str :=
  filter (fun c => c <> " ") s.

(** [c.isspace()] on the ASCII range. *)
Definition isspace (c : ascii) : bool :=
  let n := code c in
  (9 <=? n)%Z && (n <=? 13)%Z || (28 <=? n)%Z && (n <=? 32)%Z.

Fixpoint lstrip (s : str) : str :=
  match s with
  | c :: r => if isspace c then lstrip r else s
  | [] => []
  end.

(** [s.strip()] *)
Definition strip (s : str) : str := rev (lstrip (rev (lstrip s))).

(** [bytes.fromhex(s)] on a string without blanks: pairs of hexadecimal
    digits. *)
Definition bytes_fromhex (s : str) : Result (list Z) :=
  if Nat.even (length s) then HexStrToListOfInts s else Raise ValueError.

(** [struct.unpack('!f', b)[0]]: a big-endian IEEE-754 binary32.  The
    float is represented by its 32-bit pattern. *)
Definition struct_unpack_f (b : list Z) : Result Z :=
  match b with
  | [b0; b1; b2; b3] => Ok (((b0 * 256 + b1) * 256 + b2) * 256 + b3)%Z
  | _ => Raise StructError
  end.

(** ** The data frame [df] and the PGN table [pgn_df] *)

Inductive cell : Type :=
  | CStr (s : str)
  | CInt (n : Z)
  | CFloat32 (bits : Z).

(** A row maps a column name to its cell; a column without a cell is NaN.
    The frame keeps its rows in insertion order, each under its index
    label. *)
Abbreviation Row := (gmap string cell).
Abbreviation DataFrame := (list (nat * gmap string cell)).

(** [df.at[i, col] = v]: the cell of an existing row is overwritten; an
    unknown label [i] enlarges the frame with a new row, NaN elsewhere. *)
Fixpoint df_at_set (df : DataFrame) (i : nat) (col : string) (v : cell)
  : DataFrame :=
  match df with
  | [] => [(i, {[col := v]})]
  | (j, r) :: rest =>
      if decide (j = i) then (j, <[col := v]> r) :: rest
      else (j, r) :: df_at_set rest i col v
  end.

(** [df.loc[i]], when the label exists. *)
Fixpoint df_row (df : DataFrame) (i : nat) : option (gmap string cell) :=
  match df with
  | [] => None
  | (j, r) :: rest => if decide (j = i) then Some r else df_row rest i
  end.

(** Reading [df.at[i, col]]: [None] for NaN or for an unknown label. *)
Definition df_get (df : DataFrame) (i : nat) (col : string) : option cell :=
  df_row df i ≫= fun r => r !! col.

(** One row of the PGN list: the columns "PGN", "PGN label" and
    "In CSS electronics' DBC?".  The table itself is read from a CSV file
    that is not part of the sources; it is a parameter of [loop_body], and
    its column "PGN" is taken to hold integers. *)
Record pgn_row : Type := mk_pgn_row {
  PGN : Z;
  PGN_label : cell;
  In_DBC : cell
}.

(** [pgn_df[pgn_df["PGN"] == pgn_dec]] *)
Definition pgn_label_row (pgn_df : list pgn_row) (pgn_dec : Z)
  : list pgn_row :=
  filter (fun r => PGN r = pgn_dec) pgn_df.

(** ** The loop of [main] (lines 45-144) *)

Section Loop.

Variable pgn_df : list pgn_row.

(** "Parse log entry values", lines 49-80: the cells of row [i] are
    written one by one; the result is the frame together with
    [dataBytes_hex] (blanks removed) and [dataLength]. *)
Definition parse_log_entry (df : DataFrame) (i : nat) (line : str)
  : Result (DataFrame * str * nat) :=
  let df := df_at_set df i "Original" (CStr (strip line)) in
  LogTimestamp ← group1 (re_search_timestamp line);
  let df := df_at_set df i "LogTimestamp" (CStr LogTimestamp) in
  LogID ← group1 (re_search_lit_class (lit "ID = ") is_digit line);
  let df := df_at_set df i "LogID" (CStr LogID) in
  Ret ← group1 (re_search_lit_class (lit "Ret = ") is_digit line);
  let df := df_at_set df i "Ret" (CStr Ret) in
  Sz ← group1 (re_search_lit_class (lit "Sz = ") is_digit line);
  let df := df_at_set df i "Sz" (CStr Sz) in
  let blk := re_search_lit_class (lit "Blk = ") is_digit line in
  let df := match blk with
            | Some g => df_at_set df i "Blk" (CStr g)
            | None => df
            end in
  dataBytes_hex ←
    group1 (re_search_lit_class (lit "Data: ") is_HEX_or_space line);
  let dataLength := length (re_findall_groups dataBytes_hex) in
  let dataBytes_hex := remove_spaces dataBytes_hex in
  let df := df_at_set df i "LogDataBytes" (CStr dataBytes_hex) in
  Ok (df, dataBytes_hex, dataLength).

(** Line 93: the three PGN bytes, stored little-endian, are put back in
    big-endian order. *)
Definition pgn_hex_of (dataBytes_hex : str) : str :=
  slice dataBytes_hex 14 16 ++ slice dataBytes_hex 12 14
    ++ slice dataBytes_hex 10 12.

(** Lines 116-121: the identifier as a hexadecimal string. *)
Definition build_ID (priority_hex pgn_hex source_hex : str) : Result str :=
  b1 ← hexStr2binStr priority_hex 3;
  b2 ← hexStr2binStr pgn_hex 18;
  b3 ← hexStr2binStr source_hex 8;
  let ID := b1 ++ b2 ++ b3 in
  binStr2HexStr ID.

(** Lines 135-140: the PGN label and the DBC flag of the first matching
    row of the table, when there is one. *)
Definition annotate (df : DataFrame) (i : nat) (pgn_dec : Z) : DataFrame :=
  match pgn_label_row pgn_df pgn_dec with
  | [] => df
  | r0 :: _ =>
      let df := df_at_set df i "PgnLabel" (PGN_label r0) in
      df_at_set df i "PgnInDbc" (In_DBC r0)
  end.

(** "Parse CAN (J1939) frame" down to the lookup, lines 91-140. *)
Definition parse_can_frame (df : DataFrame) (i : nat) (dataBytes_hex : str)
  : Result DataFrame :=
  let timestamp_hex := slice dataBytes_hex 0 8 in
  let echoByte_hex := slice dataBytes_hex 8 10 in
  let pgn_hex := pgn_hex_of dataBytes_hex in
  let priority_hex := slice dataBytes_hex 16 18 in
  let source_hex := slice dataBytes_hex 18 20 in
  let destination_hex := slice dataBytes_hex 20 22 in
  let payload_hex := slice dataBytes_hex 22 38 in
  b ← bytes_fromhex timestamp_hex;
  t ← struct_unpack_f b;
  let df := df_at_set df i "timestamps" (CFloat32 t) in
  let df := df_at_set df i "echoByte" (CStr echoByte_hex) in
  let df := df_at_set df i "PGN" (CStr pgn_hex) in
  let df := df_at_set df i "Priority" (CStr priority_hex) in
  let df := df_at_set df i "Source" (CStr source_hex) in
  let df := df_at_set df i "Destination" (CStr destination_hex) in
  let df := df_at_set df i "DataBytes" (CStr payload_hex) in
  let df := df_at_set df i "DataLength"
              (CInt (Z.of_nat (length payload_hex) / 2)) in
  ID ← build_ID priority_hex pgn_hex source_hex;
  let df := df_at_set df i "ID" (CStr ID) in
  let df := df_at_set df i "BusChannel" (CInt 1) in
  let df := df_at_set df i "IDE" (CInt 1) in
  let df := df_at_set df i "DLC" (CInt 1) in
  let df := df_at_set df i "Dir" (CInt 1) in
  let df := df_at_set df i "EDL" (CInt 1) in
  let df := df_at_set df i "BRS" (CInt 1) in
  pgn_dec ← int pgn_hex 16;
  Ok (annotate df i pgn_dec).

(** The body of [for line in lines], on the state [(df, i)]. *)
Definition loop_body (st : DataFrame * nat) (line : str)
  : Result (DataFrame * nat) :=
  let '(df, i) := st in
  if negb (contains (lit "Data:") line) then Ok (df, i)   (* line 47 *)
  else
    '(df, dataBytes_hex, dataLength) ← parse_log_entry df i line;
    if (dataLength <? 19)%nat then Ok (df, i)              (* line 82 *)
    else
      df ← parse_can_frame df i dataBytes_hex;
      Ok (df, S i).                                        (* line 144 *)

Fixpoint run_loop (st : DataFrame * nat) (lines : list str)
  : Result (DataFrame * nat) :=
  match lines with
  | [] => Ok st
  | line :: rest => st' ← loop_body st line; run_loop st' rest
  end.

(** The frame that [main] exports (line 158), starting from the empty
    frame of line 30 and [i = 0]. *)
Definition main_df (lines : list str) : Result DataFrame :=
  st ← run_loop ([], 0%nat) lines;
  Ok (fst st).

End Loop.

(** Line 176: the column "ID" is read back as an integer by
    [int(ID, base=16)]; this is the identifier as an unsigned integer. *)
Definition CanIdentifier (ID : str) : Result Z := int ID 16.

(** ** Notions used in the statements *)

(** The digits of [bin(n)[2:]] for a non-negative [n]. *)
Definition bits (n : Z) : str := drop 2 (bin n).

(** Number of digits of [bits n]. *)
Definition width (n : Z) : nat :=
  match n with
  | Zpos p => Pos.size_nat p
  | _ => 1%nat
  end.

(** The concatenation of the fields, written with shifts. *)
Definition packed (p g s : Z) (wg ws : nat) : Z :=
  Z.lor (Z.lor (Z.shiftl p (Z.of_nat (wg + ws))) (Z.shiftl g (Z.of_nat ws))) s.


(** The payloads that pass the gate of line 82: digits of [[0-9A-F]]
    only, 38 of them at least (19 bytes). *)
Definition accepted (dataBytes_hex : str) : Prop :=
  Forall (fun c => is_HEX c = true) dataBytes_hex
  /\ (38 <= length dataBytes_hex)%nat.

(** The columns written by the log-entry part of the loop body. *)
Definition log_columns : list string :=
  ["Original"; "LogTimestamp"; "LogID"; "Ret"; "Sz"; "Blk";
   "LogDataBytes"]%string.

(** One of the five searches that are followed by [.group(1)] finds no
    match: the four required fields of lines 66-71, the payload of
    line 77. *)
Definition search_fails (line : str) : Prop :=
  re_search_timestamp line = None
  \/ re_search_lit_class (lit "ID = ") is_digit line = None
  \/ re_search_lit_class (lit "Ret = ") is_digit line = None
  \/ re_search_lit_class (lit "Sz = ") is_digit line = None
  \/ re_search_lit_class (lit "Data: ") is_HEX_or_space line = None.

(** The index labels after a write to row [i]. *)
Definition labels_with (ls : list nat) (i : nat) : list nat :=
  if decide (i ∈ ls) then ls else ls ++ [i].

(** Row [j] holds a PGN and the annotation that the table gives for it:
    the label and the flag of the first row of the table with that PGN,
    nothing when the table has no such row. *)
Definition annotated (pgn_df : list pgn_row) (df : DataFrame) (j : nat)
  : Prop :=
  exists pgn_hex pgn_dec,
    df_get df j "PGN" = Some (CStr pgn_hex)
    /\ int pgn_hex 16 = Ok pgn_dec
    /\ df_get df j "PgnLabel"
       = PGN_label <$> head (pgn_label_row pgn_df pgn_dec)
    /\ df_get df j "PgnInDbc"
       = In_DBC <$> head (pgn_label_row pgn_df pgn_dec).

(** The state of the loop between two iterations: the rows are labelled
    [0 .. i-1], with possibly an unfinished row [i] left by a dropped
    line; that row holds log columns only; the rows below [i] are
    annotated. *)
Definition loop_inv (pgn_df : list pgn_row) (st : DataFrame * nat) : Prop :=
  (st.1.*1 = seq 0 st.2 \/ st.1.*1 = seq 0 (S st.2))
  /\ (forall col, col ∉ log_columns -> df_get st.1 st.2 col = None)
  /\ (forall j, (j < st.2)%nat -> annotated pgn_df st.1 j).

(** [pat] occurs in [s]. *)
Definition occurs (pat s : str) : Prop :=
  exists pre post, s = pre ++ pat ++ post.

(** [pat] occurs on the first line of [s]: no newline before it. *)
Definition occurs_on_first_line (pat s : str) : Prop :=
  exists pre post,
    s = pre ++ pat ++ post /\ Forall (fun c => is_newline c = false) pre.

(** What [readlines] yields: a newline can only be the last character. *)
Definition is_text_line (line : str) : Prop :=
  forall pre post c, line = pre ++ c :: post -> is_newline c = true ->
    post = [].

(** ** Examples *)

(** The end of a line, as [readlines] leaves it. *)
Definition eol : str := ["010"].

(** The line of the comment at line 59 of the program. *)
Definition example_line : str :=
  lit "000001.226604 (000.003827)  Rx() ID = 00 Ret = 0019 Sz = 02048 Blk = 1 Data:  00 11 EE B0 00 20 FF 00 03 00 FF 10 21 00 00 00 FF D0 FF"
    ++ eol.

(** The payload of the scenario of section 8 of the specification. *)
Definition scenario_payload : str :=
  lit "0011EEB00020FF000300FF1021000000FFD0FF".

(** A payload whose third PGN byte is [04]. *)
Definition wide_pgn_payload : str :=
  lit "0011EEB0000000040300FF1021000000FFD0FF".

(** The example line without its [Ret] field. *)
Definition no_ret_line : str :=
  lit "000001.226604 (000.003827)  Rx() ID = 00 Sz = 02048 Blk = 1 Data:  00 11 EE B0 00 20 FF 00 03 00 FF 10 21 00 00 00 FF D0 FF"
    ++ eol.

(** A line with three payload bytes only. *)
Definition short_line : str :=
  lit "000001.226604 (000.003827)  Rx() ID = 00 Ret = 0019 Sz = 02048 Blk = 1 Data:  00 11 EE"
    ++ eol.

(** A short payload on a line without any other field. *)
Definition bare_short_line : str := lit "Data:  00 11 EE" ++ eol.

(** The example line without its [Blk] field. *)
Definition no_blk_line : str :=
  lit "000001.226604 (000.003827)  Rx() ID = 00 Ret = 0019 Sz = 02048 Data:  00 11 EE B0 00 20 FF 00 03 00 FF 10 21 00 00 00 FF D0 FF"
    ++ eol.

(** A table with two rows for PGN 65312. *)
Definition two_labels : list pgn_row :=
  [ mk_pgn_row 61444 (CStr (lit "Electronic Engine Controller 1"))
      (CStr (lit "Yes"));
    mk_pgn_row 65312 (CStr (lit "first")) (CStr (lit "Yes"));
    mk_pgn_row 65312 (CStr (lit "second")) (CStr (lit "No")) ].

(** A line with the timestamp and the three integer prefixes, without
    digits, whose marker is not followed by a blank. *)
Definition no_blank_line : str :=
  lit "000001.226604 (000.003827)  Rx() ID = Ret = Sz = Data:00 11 EE"
    ++ eol.

(** A line whose three integer fields have no digit. *)
Definition no_digit_line : str :=
  lit "000001.226604 (000.003827)  Rx() ID = Ret = Sz = Data:  00 11 EE"
    ++ eol.

(** ** Notions used for the rest of the program *)

(** A binary digit. *)
Definition is_bit (c : ascii) : bool := Ascii.eqb c "0" || Ascii.eqb c "1".

(** Line 47: the line holds the payload marker. *)
Definition has_marker (line : str) : bool := contains (lit "Data:") line.

(** The line goes through the gate of line 82: it holds the marker and
    its payload counts 19 groups at least. *)
Definition passes (line : str) : bool :=
  has_marker line
  && match re_search_lit_class (lit "Data: ") is_HEX_or_space line with
     | Some g => (19 <=? length (re_findall_groups g))%nat
     | None => false
     end.

(** The cells [row] are those that the loop body writes for [line], from
    the first write of line 49 to the lookup of line 140.  ([Blk] is
    written only when the line has the field.) *)
Definition decoded_from (pgn_df : list pgn_row) (line : str)
    (row : string -> option cell) : Prop :=
  exists ts id ret sz g b t ID pgn_dec,
    re_search_timestamp line = Some ts
    /\ re_search_lit_class (lit "ID = ") is_digit line = Some id
    /\ re_search_lit_class (lit "Ret = ") is_digit line = Some ret
    /\ re_search_lit_class (lit "Sz = ") is_digit line = Some sz
    /\ re_search_lit_class (lit "Data: ") is_HEX_or_space line = Some g
    /\ accepted (remove_spaces g)
    /\ bytes_fromhex (slice (remove_spaces g) 0 8) = Ok b
    /\ struct_unpack_f b = Ok t
    /\ build_ID (slice (remove_spaces g) 16 18) (pgn_hex_of (remove_spaces g))
         (slice (remove_spaces g) 18 20) = Ok ID
    /\ int (pgn_hex_of (remove_spaces g)) 16 = Ok pgn_dec
    /\ row "Original"%string = Some (CStr (strip line))
    /\ row "LogTimestamp"%string = Some (CStr ts)
    /\ row "LogID"%string = Some (CStr id)
    /\ row "Ret"%string = Some (CStr ret)
    /\ row "Sz"%string = Some (CStr sz)
    /\ (forall blk,
          re_search_lit_class (lit "Blk = ") is_digit line = Some blk ->
          row "Blk"%string = Some (CStr blk))
    /\ row "LogDataBytes"%string = Some (CStr (remove_spaces g))
    /\ row "timestamps"%string = Some (CFloat32 t)
    /\ row "echoByte"%string = Some (CStr (slice (remove_spaces g) 8 10))
    /\ row "PGN"%string = Some (CStr (pgn_hex_of (remove_spaces g)))
    /\ row "Priority"%string = Some (CStr (slice (remove_spaces g) 16 18))
    /\ row "Source"%string = Some (CStr (slice (remove_spaces g) 18 20))
    /\ row "Destination"%string = Some (CStr (slice (remove_spaces g) 20 22))
    /\ row "DataBytes"%string = Some (CStr (slice (remove_spaces g) 22 38))
    /\ row "DataLength"%string = Some (CInt 8)
    /\ row "ID"%string = Some (CStr ID)
    /\ (forall col,
          col ∈ ["BusChannel"; "IDE"; "DLC"; "Dir"; "EDL"; "BRS"]%string ->
          row col = Some (CInt 1))
    /\ row "PgnLabel"%string = PGN_label <$> head (pgn_label_row pgn_df pgn_dec)
    /\ row "PgnInDbc"%string = In_DBC <$> head (pgn_label_row pgn_df pgn_dec).

(** The last line with the marker, if any, did not pass the gate. *)
Definition leftover (lines : list str) : bool :=
  match last (filter (fun l => has_marker l = true) lines) with
  | Some l => negb (passes l)
  | None => false
  end.

(** ** The conversions of the columns for the MF4 file (lines 176, 186) *)

(** These conversions meet cells that are not strings (NaN in a column of
    an unfinished row): taking [len] of such an item, or [int] of it with
    a base, raises [TypeError]. *)
Inductive ExportResult (A : Type) : Type :=
  | Converted (a : A)
  | TypeError
  | Raised (e : exn).
Arguments Converted {A} a.
Arguments TypeError {A}.
Arguments Raised {A} e.

Definition of_Result {A} (r : Result A) : ExportResult A :=
  match r with
  | Ok a => Converted a
  | Raise e => Raised e
  end.

(** The items are converted from first to last; the first exception ends
    the conversion. *)
Fixpoint sequenceE {A} (l : list (ExportResult A)) : ExportResult (list A) :=
  match l with
  | [] => Converted []
  | Converted a :: rest =>
      match sequenceE rest with
      | Converted t => Converted (a :: t)
      | TypeError => TypeError
      | Raised e => Raised e
      end
  | TypeError :: _ => TypeError
  | Raised e :: _ => Raised e
  end.

(** [df[col]]: the cells of a column, in the order of the rows; [None]
    is NaN. *)
Definition df_column (df : DataFrame) (col : string) : list (option cell) :=
  (fun r => r.2 !! col) <$> df.

(** [int(x, base=16)] on a cell. *)
Definition int_base16 (x : option cell) : ExportResult Z :=
  match x with
  | Some (CStr s) => of_Result (int s 16)
  | _ => TypeError
  end.

(** Line 176: [df['ID'].apply(int, base=16)]. *)
Definition ID_as_int (df : DataFrame) : ExportResult (list Z) :=
  sequenceE (int_base16 <$> df_column df "ID").

(** [HexStrToListOfInts(item)] on a cell. *)
Definition HexStrToListOfInts_item (item : option cell)
  : ExportResult (list Z) :=
  match item with
  | Some (CStr s) => of_Result (HexStrToListOfInts s)
  | _ => TypeError
  end.

(** [ColumnHexToListOfInts], line 261. *)
Definition ColumnHexToListOfInts (df_col : list (option cell))
  : ExportResult (list (list Z)) :=
  sequenceE (HexStrToListOfInts_item <$> df_col).

(** * Properties *)

Example hexStr2binStr_3 : hexStr2binStr (lit "03") 3 = Ok (lit "011").
Proof. reflexivity. Qed.

Example binStr2HexStr_ex :
  binStr2HexStr (lit "01100111111110010000000000000") = Ok (lit "CFF2000").
Proof. vm_compute. reflexivity. Qed.

Example HexStrToListOfInts_ex :
  HexStrToListOfInts (lit "A123EE") = Ok [161; 35; 238]%Z.
Proof. vm_compute. reflexivity. Qed.
(** ** Digit strings and their values *)

Lemma bind_Ok {A B} (m : Result A) (f : A -> Result B) (b : B) :
  m ≫= f = Ok b <-> exists a, m = Ok a /\ f a = Ok b.
Proof.
  destruct m as [a|e]; simpl; split.
  - intros H. exists a. split; [reflexivity | exact H].
  - intros (a' & Ha & Hf). injection Ha as ->. exact Hf.
  - intros H. discriminate H.
  - intros (a' & Ha & _). discriminate Ha.
Qed.

Lemma int_nonempty (s : str) (base : Z) :
  s <> [] -> int s base = int_digits base 0 s.
Proof. destruct s; [congruence | reflexivity]. Qed.

Lemma int_digits_app (base acc : Z) (s1 s2 : str) :
  int_digits base acc (s1 ++ s2)
  = int_digits base acc s1 ≫= fun a => int_digits base a s2.
Proof.
  revert acc. induction s1 as [|c s1 IH]; intros acc; simpl.
  - reflexivity.
  - destruct (digit_val c) as [d|]; [|reflexivity].
    destruct (d <? base)%Z; [apply IH | reflexivity].
Qed.

Lemma digit_val_nonneg (c : ascii) (d : Z) :
  digit_val c = Some d -> (0 <= d)%Z.
Proof.
  unfold digit_val.
  repeat case_match; intros [= <-]; lia.
Qed.

(** The accumulator only shifts the value of the digits. *)
Lemma int_digits_acc (base : Z) (s : str) (acc v : Z) :
  int_digits base 0 s = Ok v ->
  int_digits base acc s = Ok (acc * base ^ Z.of_nat (length s) + v)%Z.
Proof.
  revert acc v. induction s as [|c s IH] using rev_ind; intros acc v.
  - simpl. intros [= <-]. f_equal. lia.
  - rewrite !int_digits_app, length_app. simpl.
    intros (a & Ha & Hc)%bind_Ok.
    rewrite (IH acc a Ha). simpl.
    destruct (digit_val c) as [d|]; [|discriminate].
    destruct (d <? base)%Z; [|discriminate].
    injection Hc as <-. f_equal.
    rewrite Nat2Z.inj_add, Z.pow_add_r by lia.
    change (Z.of_nat 1) with 1%Z. rewrite Z.pow_1_r. ring.
Qed.

Lemma int_digits_nonneg (base : Z) (s : str) (acc v : Z) :
  (0 <= base)%Z -> (0 <= acc)%Z ->
  int_digits base acc s = Ok v -> (0 <= v)%Z.
Proof.
  intros Hb. revert acc v. induction s as [|c s IH]; intros acc v Hacc; simpl.
  - intros [= <-]. exact Hacc.
  - destruct (digit_val c) as [d|] eqn:Hd; [|discriminate].
    destruct (d <? base)%Z; [|discriminate].
    apply IH. apply digit_val_nonneg in Hd. nia.
Qed.

Lemma int_nonneg (s : str) (v : Z) : int s 16 = Ok v -> (0 <= v)%Z.
Proof.
  destruct s as [|c s]; [discriminate|].
  unfold int. apply int_digits_nonneg; lia.
Qed.

(** *** Binary strings *)

Lemma bits_pos_value (p : positive) :
  int_digits 2 0 (bits_pos p) = Ok (Zpos p).
Proof.
  induction p as [q IH|q IH|]; simpl; [| |reflexivity];
    rewrite int_digits_app, IH; simpl; f_equal; unfold code; cbn; lia.
Qed.

Lemma bits_pos_length (p : positive) : length (bits_pos p) = Pos.size_nat p.
Proof.
  induction p as [q IH|q IH|]; simpl; [| |reflexivity];
    rewrite length_app, IH; simpl; lia.
Qed.

Lemma bits_pos_head (p : positive) : exists r, bits_pos p = "1" :: r.
Proof.
  induction p as [q [r IH]|q [r IH]|]; simpl; [| |eauto]; rewrite IH; eauto.
Qed.

Lemma bits_value (n : Z) : (0 <= n)%Z -> int_digits 2 0 (bits n) = Ok n.
Proof.
  destruct n as [|p|p]; intros Hn; [reflexivity | apply bits_pos_value | lia].
Qed.

Lemma bits_length (n : Z) : (0 <= n)%Z -> length (bits n) = width n.
Proof.
  destruct n as [|p|p]; intros Hn; [reflexivity | apply bits_pos_length | lia].
Qed.

Lemma bits_head (n : Z) :
  (0 <= n)%Z -> exists c r, bits n = c :: r /\ is_sign c = false.
Proof.
  destruct n as [|p|p]; intros Hn; [| |lia].
  - exists "0", []. split; reflexivity.
  - destruct (bits_pos_head p) as [r Hr]. exists "1", r.
    split; [exact Hr | reflexivity].
Qed.

Lemma zfill_bits (n : Z) (w : nat) :
  (0 <= n)%Z -> zfill (bits n) w = replicate (w - width n) "0" ++ bits n.
Proof.
  intros Hn. destruct (bits_head n Hn) as (c & r & Hb & Hc).
  unfold zfill. rewrite bits_length by exact Hn. rewrite Hb, Hc. reflexivity.
Qed.

Lemma int_digits_zeros (base acc : Z) (k : nat) :
  (0 < base)%Z ->
  int_digits base acc (replicate k "0") = Ok (acc * base ^ Z.of_nat k)%Z.
Proof.
  intros Hb. revert acc. induction k as [|k IH]; intros acc.
  - simpl. f_equal. lia.
  - cbn [replicate int_digits]. change (digit_val "0") with (Some 0%Z).
    cbv beta iota. rewrite (proj2 (Z.ltb_lt 0 base) Hb), IH. f_equal.
    rewrite Nat2Z.inj_succ, Z.pow_succ_r by lia. lia.
Qed.

(** A field of the identifier: [numBits] digits at least, more when the
    value needs more, and the value is unchanged. *)
Lemma hexStr2binStr_spec (hexStr : str) (numBits : nat) (n : Z) :
  int hexStr 16 = Ok n ->
  exists b, hexStr2binStr hexStr numBits = Ok b
    /\ length b = (numBits `max` width n)%nat
    /\ int_digits 2 0 b = Ok n.
Proof.
  intros Hn. pose proof (int_nonneg _ _ Hn) as Hpos.
  unfold hexStr2binStr. rewrite Hn. simpl.
  eexists. split; [reflexivity|].
  fold (bits n). rewrite zfill_bits by exact Hpos. split.
  - rewrite length_app, length_replicate, bits_length by exact Hpos. lia.
  - rewrite int_digits_app, int_digits_zeros by lia. simpl.
    apply bits_value, Hpos.
Qed.

(** *** Hexadecimal strings *)

Lemma digit_val_hex_digit (d : Z) :
  (0 <= d < 16)%Z -> digit_val (hex_digit d) = Some d.
Proof.
  intros Hd.
  assert (Hcases : Exists (fun k => d = k)
            [0;1;2;3;4;5;6;7;8;9;10;11;12;13;14;15]%Z).
  { rewrite !Exists_cons. lia. }
  rewrite !Exists_cons, Exists_nil in Hcases.
  repeat destruct Hcases as [->|Hcases]; try reflexivity; contradiction.
Qed.

Lemma hex_digits_value (fuel : nat) (n : Z) :
  (0 <= n < 16 ^ Z.of_nat fuel)%Z ->
  int_digits 16 0 (hex_digits fuel n) = Ok n.
Proof.
  revert n. induction fuel as [|f IH]; intros n Hn.
  - simpl in *. f_equal. lia.
  - rewrite Nat2Z.inj_succ, Z.pow_succ_r in Hn by lia.
    cbn [hex_digits]. destruct (Z.ltb_spec n 16) as [Hlt|Hge].
    + cbn [int_digits]. rewrite digit_val_hex_digit by lia.
      cbv beta iota. rewrite (proj2 (Z.ltb_lt n 16) Hlt). f_equal.
    + rewrite int_digits_app, IH.
      2:{ split; [apply Z.div_pos; lia|].
          apply Z.div_lt_upper_bound; lia. }
      simpl. pose proof (Z.mod_pos_bound n 16 ltac:(lia)) as Hm.
      rewrite digit_val_hex_digit by exact Hm.
      rewrite (proj2 (Z.ltb_lt (n mod 16) 16)) by lia.
      f_equal. pose proof (Z.div_mod n 16 ltac:(lia)). lia.
Qed.

Lemma hex_fuel_enough (n : Z) :
  (0 <= n)%Z -> (n < 16 ^ Z.of_nat (S (Z.to_nat (Z.log2 n))))%Z.
Proof.
  intros Hn. pose proof (Z.log2_nonneg n) as Hl.
  rewrite Nat2Z.inj_succ, Z2Nat.id by exact Hl.
  apply Z.lt_le_trans with (2 ^ Z.succ (Z.log2 n))%Z.
  - destruct (Z.eq_dec n 0%Z) as [->|Hne]; [reflexivity|].
    apply Z.log2_spec. lia.
  - apply Z.pow_le_mono_l. lia.
Qed.

Lemma format_X_value (n : Z) :
  (0 <= n)%Z -> int_digits 16 0 (format_X n) = Ok n.
Proof.
  intros Hn. unfold format_X.
  destruct (Z.ltb_spec n 0) as [|_]; [lia|].
  apply hex_digits_value. split; [exact Hn | apply hex_fuel_enough, Hn].
Qed.

Lemma hex_digits_nonempty (fuel : nat) (n : Z) : hex_digits (S fuel) n <> [].
Proof.
  simpl. destruct (n <? 16)%Z; [discriminate|].
  intros H. apply app_eq_nil in H as [_ H]. discriminate H.
Qed.

(** The identifier string read back by [int(ID, 16)] is the integer that
    was formatted. *)
Lemma format_0gt4X_value (n : Z) :
  (0 <= n)%Z -> int (format_0gt4X n) 16 = Ok n.
Proof.
  intros Hn. rewrite int_nonempty.
  - unfold format_0gt4X. rewrite int_digits_app, int_digits_zeros by lia.
    simpl. apply format_X_value, Hn.
  - unfold format_0gt4X, format_X.
    destruct (Z.ltb_spec n 0) as [|_]; [lia|].
    intros H. apply app_eq_nil in H as [_ H].
    exact (hex_digits_nonempty _ _ H).
Qed.

(** *** Shifts and masks *)

Lemma lor_shiftl_add (hi lo : Z) (k : nat) :
  (0 <= lo < 2 ^ Z.of_nat k)%Z ->
  Z.lor (Z.shiftl hi (Z.of_nat k)) lo = (hi * 2 ^ Z.of_nat k + lo)%Z.
Proof.
  intros Hlo.
  assert (Hdisj : Z.land (Z.shiftl hi (Z.of_nat k)) lo = 0%Z).
  { apply Z.bits_inj'. intros m Hm.
    rewrite Z.land_spec, Z.bits_0.
    destruct (Z.lt_ge_cases m (Z.of_nat k)) as [Hlt|Hge].
    - rewrite Z.shiftl_spec_low by exact Hlt. reflexivity.
    - rewrite <- (Z.mod_small lo (2 ^ Z.of_nat k)) by exact Hlo.
      rewrite Z.mod_pow2_bits_high by lia. apply andb_false_r. }
  rewrite <- Z.lxor_lor by exact Hdisj.
  rewrite <- Z.add_nocarry_lxor by exact Hdisj.
  rewrite Z.shiftl_mul_pow2 by lia. reflexivity.
Qed.

Lemma width_bound (n : Z) : (0 <= n)%Z -> (n < 2 ^ Z.of_nat (width n))%Z.
Proof.
  destruct n as [|p|p]; intros Hn; [reflexivity| |lia].
  unfold width. induction p as [q IH|q IH|]; [| |reflexivity];
    cbn [Pos.size_nat]; rewrite Nat2Z.inj_succ, Z.pow_succ_r by lia; lia.
Qed.

Lemma width_small (n : Z) (k : nat) :
  (0 <= n < 2 ^ Z.of_nat k)%Z -> (1 <= k)%nat -> (width n <= k)%nat.
Proof.
  destruct n as [|p|p]; intros [Hn Hlt] Hk; [exact Hk| |lia].
  unfold width. revert k Hlt Hk.
  induction p as [q IH|q IH|]; intros k Hlt Hk; cbn [Pos.size_nat].
  - destruct k as [|k]; [lia|].
    rewrite Nat2Z.inj_succ, Z.pow_succ_r in Hlt by lia.
    destruct k as [|k]; [simpl in Hlt; lia|].
    apply le_n_S, IH; lia.
  - destruct k as [|k]; [lia|].
    rewrite Nat2Z.inj_succ, Z.pow_succ_r in Hlt by lia.
    destruct k as [|k]; [simpl in Hlt; lia|].
    apply le_n_S, IH; lia.
  - exact Hk.
Qed.

(** ** The identifier builder (lines 116-121, 176) *)

(** What the builder computes, on any three fields: each field takes its
    nominal number of bits, or the number of bits of its value when that
    is larger, and the fields are put side by side. *)
Lemma build_ID_value (priority_hex pgn_hex source_hex : str) (p g s : Z) :
  int priority_hex 16 = Ok p ->
  int pgn_hex 16 = Ok g ->
  int source_hex 16 = Ok s ->
  exists ID,
    build_ID priority_hex pgn_hex source_hex = Ok ID
    /\ CanIdentifier ID
       = Ok (p * 2 ^ Z.of_nat ((18 `max` width g) + (8 `max` width s))
             + g * 2 ^ Z.of_nat (8 `max` width s) + s)%Z.
Proof.
  intros Hp Hg Hs.
  destruct (hexStr2binStr_spec _ 3 _ Hp) as (b1 & E1 & L1 & V1).
  destruct (hexStr2binStr_spec _ 18 _ Hg) as (b2 & E2 & L2 & V2).
  destruct (hexStr2binStr_spec _ 8 _ Hs) as (b3 & E3 & L3 & V3).
  pose proof (int_nonneg _ _ Hp) as Hp0.
  pose proof (int_nonneg _ _ Hg) as Hg0.
  pose proof (int_nonneg _ _ Hs) as Hs0.
  assert (Hv : int_digits 2 0 (b1 ++ b2 ++ b3)
      = Ok (p * 2 ^ Z.of_nat ((18 `max` width g) + (8 `max` width s))
            + g * 2 ^ Z.of_nat (8 `max` width s) + s)%Z).
  { rewrite int_digits_app, V1. simpl.
    rewrite int_digits_app, (int_digits_acc 2 b2 p g V2). simpl.
    rewrite (int_digits_acc 2 b3 _ s V3), L2, L3. f_equal.
    rewrite Nat2Z.inj_add, Z.pow_add_r by lia. ring. }
  unfold build_ID. rewrite E1, E2, E3. simpl.
  unfold binStr2HexStr. rewrite int_nonempty, Hv.
  2:{ intros H. apply (f_equal length) in H.
      rewrite !length_app, L1 in H. simpl in H. lia. }
  simpl. eexists. split; [reflexivity|].
  apply format_0gt4X_value.
  assert (0 <= 2 ^ Z.of_nat ((18 `max` width g) + (8 `max` width s)))%Z
    by (apply Z.pow_nonneg; lia).
  assert (0 <= 2 ^ Z.of_nat (8 `max` width s))%Z by (apply Z.pow_nonneg; lia).
  nia.
Qed.

(** For fields within their nominal widths the identifier is
    [p * 2^26 + g * 2^8 + s]. *)
Lemma build_ID_in_range (priority_hex pgn_hex source_hex : str) (p g s : Z) :
  int priority_hex 16 = Ok p ->
  int pgn_hex 16 = Ok g ->
  int source_hex 16 = Ok s ->
  (g < 2 ^ 18)%Z -> (s < 2 ^ 8)%Z ->
  exists ID,
    build_ID priority_hex pgn_hex source_hex = Ok ID
    /\ CanIdentifier ID = Ok (p * 2 ^ 26 + g * 2 ^ 8 + s)%Z.
Proof.
  intros Hp Hg Hs Hg18 Hs8.
  destruct (build_ID_value _ _ _ _ _ _ Hp Hg Hs) as (ID & HID & Hid).
  exists ID. split; [exact HID|]. rewrite Hid.
  pose proof (int_nonneg _ _ Hg) as Hg0.
  pose proof (int_nonneg _ _ Hs) as Hs0.
  assert (Hwg : (width g <= 18)%nat) by (apply width_small; [lia|lia]).
  assert (Hws : (width s <= 8)%nat) by (apply width_small; [lia|lia]).
  replace (18 `max` width g)%nat with 18%nat by lia.
  replace (8 `max` width s)%nat with 8%nat by lia.
  reflexivity.
Qed.

Lemma packed_add (p g s : Z) (wg ws : nat) :
  (0 <= g < 2 ^ Z.of_nat wg)%Z -> (0 <= s < 2 ^ Z.of_nat ws)%Z ->
  packed p g s wg ws
  = (p * 2 ^ Z.of_nat (wg + ws) + g * 2 ^ Z.of_nat ws + s)%Z.
Proof.
  intros Hg Hs. unfold packed.
  rewrite Nat2Z.inj_add, <- Z.shiftl_shiftl, <- Z.shiftl_lor by lia.
  rewrite (lor_shiftl_add p g wg Hg), lor_shiftl_add by exact Hs.
  rewrite Z.pow_add_r by lia. ring.
Qed.


(** ** Claims about the identifier builder *)

(** C1: for a priority in [0,7], a PGN in [0, 2^18-1] and a source in
    [0,255] (the values of the three hexadecimal fields), the identifier
    that is built gives back the priority in bits 28-26, the PGN in bits
    25-8 and the source in bits 7-0, and is below 2^29. *)
Theorem C1_id_packing_roundtrip
    (priority_hex pgn_hex source_hex : str) (priority pgn source : Z) :
  int priority_hex 16 = Ok priority ->
  int pgn_hex 16 = Ok pgn ->
  int source_hex 16 = Ok source ->
  (0 <= priority <= 7)%Z ->
  (0 <= pgn <= 2 ^ 18 - 1)%Z ->
  (0 <= source <= 255)%Z ->
  exists ID id,
    build_ID priority_hex pgn_hex source_hex = Ok ID
    /\ CanIdentifier ID = Ok id
    /\ Z.land (Z.shiftr id 26) 7 = priority
    /\ Z.land (Z.shiftr id 8) 262143 = pgn
    /\ Z.land id 255 = source
    /\ (id < 2 ^ 29)%Z.
Proof.
  intros Hp Hg Hs Rp Rg Rs.
  destruct (build_ID_in_range _ _ _ _ _ _ Hp Hg Hs) as (ID & HID & Hid);
    [lia | lia |].
  exists ID, (priority * 2 ^ 26 + pgn * 2 ^ 8 + source)%Z.
  split; [exact HID|]. split; [exact Hid|].
  change 7%Z with (Z.ones 3). change 262143%Z with (Z.ones 18).
  change 255%Z with (Z.ones 8).
  rewrite !Z.land_ones, !Z.shiftr_div_pow2 by lia.
  change (2 ^ 26)%Z with 67108864%Z. change (2 ^ 18)%Z with 262144%Z in *.
  change (2 ^ 8)%Z with 256%Z. change (2 ^ 3)%Z with 8%Z.
  change (2 ^ 29)%Z with 536870912%Z.
  repeat split.
  - Z.div_mod_to_equations. lia.
  - Z.div_mod_to_equations. lia.
  - Z.div_mod_to_equations. lia.
  - lia.
Qed.

Lemma C1_id_packing_roundtrip_witness :
  int (lit "03") 16 = Ok 3%Z
  /\ int (lit "00FF20") 16 = Ok 65312%Z
  /\ int (lit "00") 16 = Ok 0%Z
  /\ exists ID id,
       build_ID (lit "03") (lit "00FF20") (lit "00") = Ok ID
       /\ CanIdentifier ID = Ok id
       /\ Z.land (Z.shiftr id 26) 7 = 3%Z
       /\ Z.land (Z.shiftr id 8) 262143 = 65312%Z
       /\ Z.land id 255 = 0%Z
       /\ (id < 2 ^ 29)%Z.
Proof.
  repeat (split; [reflexivity|]).
  apply (C1_id_packing_roundtrip (lit "03") (lit "00FF20") (lit "00")
           3 65312 0); first [reflexivity | lia].
Defined.




(** ** Hexadecimal payloads *)

Lemma is_HEX_digit_val (c : ascii) :
  is_HEX c = true -> exists d, digit_val c = Some d /\ (0 <= d < 16)%Z.
Proof.
  unfold is_HEX, is_digit, digit_val. generalize (code c). intros n Hn.
  repeat case_match; try (eexists; split; [reflexivity | lia]); lia.
Qed.

Lemma int_digits_hex (s : str) :
  Forall (fun c => is_HEX c = true) s ->
  exists v, int_digits 16 0 s = Ok v
    /\ (0 <= v < 16 ^ Z.of_nat (length s))%Z.
Proof.
  induction s as [|c s IH] using rev_ind; intros Hs.
  - exists 0%Z. split; [reflexivity | simpl; lia].
  - apply Forall_app in Hs as [Hs Hc]. apply Forall_inv in Hc.
    destruct (IH Hs) as (v & Hv & Bv).
    destruct (is_HEX_digit_val c Hc) as (d & Hd & Bd).
    exists (v * 16 + d)%Z. split.
    + rewrite int_digits_app, Hv. simpl. rewrite Hd.
      rewrite (proj2 (Z.ltb_lt d 16)) by lia. reflexivity.
    + rewrite length_app, Nat2Z.inj_add, Z.pow_add_r by lia.
      change (16 ^ Z.of_nat (length [c]))%Z with 16%Z. lia.
Qed.

Lemma int_hex (s : str) :
  Forall (fun c => is_HEX c = true) s -> s <> [] ->
  exists v, int s 16 = Ok v /\ (0 <= v < 16 ^ Z.of_nat (length s))%Z.
Proof.
  intros Hs Hne. rewrite int_nonempty by exact Hne.
  apply int_digits_hex, Hs.
Qed.

Lemma slice_length (s : str) (a b : nat) :
  (b <= length s)%nat -> length (slice s a b) = (b - a)%nat.
Proof.
  intros Hb. unfold slice. rewrite length_take, length_drop. lia.
Qed.

Lemma slice_hex (s : str) (a b : nat) :
  Forall (fun c => is_HEX c = true) s ->
  Forall (fun c => is_HEX c = true) (slice s a b).
Proof. intros Hs. unfold slice. apply Forall_take, Forall_drop, Hs. Qed.

(** A slice of [n > 0] digits of a payload has a value below [16^n]. *)
Lemma int_slice (s : str) (a b : nat) :
  Forall (fun c => is_HEX c = true) s ->
  (a < b <= length s)%nat ->
  exists v, int (slice s a b) 16 = Ok v
    /\ (0 <= v < 16 ^ Z.of_nat (b - a))%Z.
Proof.
  intros Hs Hab.
  destruct (int_hex (slice s a b)) as (v & Hv & Bv).
  - apply slice_hex, Hs.
  - intros E. apply (f_equal length) in E.
    rewrite slice_length in E by lia. simpl in E. lia.
  - rewrite slice_length in Bv by lia. eauto.
Qed.

Lemma sequenceR_Ok {A} (rs : list (Result A)) (l : list A) :
  sequenceR rs = Ok l <-> rs = Ok <$> l.
Proof.
  revert l. induction rs as [|r rs IH]; intros l; simpl.
  - split.
    + intros [= <-]. reflexivity.
    + destruct l; [reflexivity | discriminate].
  - split.
    + intros (a & -> & (t & Ht & [= <-])%bind_Ok)%bind_Ok.
      apply IH in Ht. subst rs. reflexivity.
    + destruct l as [|a l]; [discriminate|].
      intros [= -> Hrs]. apply IH in Hrs. rewrite Hrs. reflexivity.
Qed.

Lemma div2_S_lt (n k : nat) : (k < Nat.div2 (S n) <-> 2 * k < n)%nat.
Proof.
  pose proof (Nat.div2_odd (S n)) as E.
  destruct (Nat.odd (S n)); unfold Nat.b2n in E; lia.
Qed.

Lemma range2_lookup (n k : nat) :
  (2 * k < n)%nat -> range2 n !! k = Some (2 * k)%nat.
Proof.
  intros Hk. unfold range2. rewrite list_lookup_fmap.
  rewrite lookup_seq_lt; [reflexivity|]. apply div2_S_lt, Hk.
Qed.

Lemma range2_bound (n i : nat) : i ∈ range2 n -> (i < n)%nat.
Proof.
  unfold range2. intros (k & -> & Hk)%list_elem_of_fmap.
  apply elem_of_seq in Hk. apply div2_S_lt. lia.
Qed.

Lemma range2_length (n : nat) : length (range2 n) = Nat.div2 (S n).
Proof. unfold range2. rewrite length_fmap, length_seq. reflexivity. Qed.

(** The bytes of a payload: [HexStrToListOfInts] succeeds on hexadecimal
    digits, and its [k]-th element is the value of the [k]-th pair. *)
Lemma HexStrToListOfInts_hex (s : str) :
  Forall (fun c => is_HEX c = true) s ->
  exists l, HexStrToListOfInts s = Ok l
    /\ length l = Nat.div2 (S (length s)).
Proof.
  intros Hs. unfold HexStrToListOfInts.
  assert (Hall : Forall (fun i => exists v, int (slice s i (i + 2)) 16 = Ok v)
                   (range2 (length s))).
  { apply Forall_forall. intros i Hi%range2_bound.
    destruct (int_hex (slice s i (i + 2))) as (v & Hv & _); [| |eauto].
    - apply slice_hex, Hs.
    - intros E. apply (f_equal length) in E. unfold slice in E.
      rewrite length_take, length_drop in E. simpl in E. lia. }
  rewrite <- (range2_length (length s)).
  induction Hall as [|i rest [v Hv] _ IH].
  - exists []. split; reflexivity.
  - destruct IH as (l & Hl & Ll).
    exists (v :: l). split; [|simpl; lia].
    rewrite !fmap_cons. cbn [sequenceR].
    apply bind_Ok. exists v. split; [exact Hv|].
    apply bind_Ok. exists l. split; [exact Hl | reflexivity].
Qed.

Lemma HexStrToListOfInts_lookup (s : str) (l : list Z) (k : nat) (b : Z) :
  HexStrToListOfInts s = Ok l ->
  (2 * k < length s)%nat ->
  l !! k = Some b <-> int (slice s (2 * k) (2 * k + 2)) 16 = Ok b.
Proof.
  unfold HexStrToListOfInts. intros Hl%sequenceR_Ok Hk.
  apply (f_equal (fun x => x !! k)) in Hl.
  rewrite !list_lookup_fmap, range2_lookup in Hl by exact Hk.
  remember (2 * k)%nat as m. simpl in Hl. destruct (l !! k) as [b'|]; simpl in Hl; [|discriminate].
  injection Hl as Hl. rewrite Hl. split; congruence.
Qed.

(** ** The frame decoder (lines 91-107, 135) *)

(** Value of [pgn_hex]: the three pairs of digits, the last stored pair
    being the most significant. *)
Lemma pgn_hex_value (h : str) :
  accepted h ->
  exists b0 b1 b2,
    int (slice h 10 12) 16 = Ok b0
    /\ int (slice h 12 14) 16 = Ok b1
    /\ int (slice h 14 16) 16 = Ok b2
    /\ (0 <= b0 < 256)%Z /\ (0 <= b1 < 256)%Z /\ (0 <= b2 < 256)%Z
    /\ int (pgn_hex_of h) 16 = Ok (b2 * 65536 + b1 * 256 + b0)%Z.
Proof.
  intros [Hh Hlen].
  destruct (int_slice h 10 12 Hh) as (b0 & E0 & B0); [lia|].
  destruct (int_slice h 12 14 Hh) as (b1 & E1 & B1); [lia|].
  destruct (int_slice h 14 16 Hh) as (b2 & E2 & B2); [lia|].
  exists b0, b1, b2. repeat (split; [first [assumption | lia]|]).
  assert (L0 : length (slice h 10 12) = 2%nat) by (rewrite slice_length; lia).
  assert (L1 : length (slice h 12 14) = 2%nat) by (rewrite slice_length; lia).
  assert (L2 : length (slice h 14 16) = 2%nat) by (rewrite slice_length; lia).
  assert (N0 : slice h 10 12 <> []) by (intros E; rewrite E in L0; discriminate).
  assert (N1 : slice h 12 14 <> []) by (intros E; rewrite E in L1; discriminate).
  assert (N2 : slice h 14 16 <> []) by (intros E; rewrite E in L2; discriminate).
  rewrite int_nonempty in E0, E1, E2 by assumption.
  unfold pgn_hex_of. rewrite int_nonempty.
  2:{ intros E. apply app_eq_nil in E as [E _]. contradiction. }
  rewrite int_digits_app, E2. simpl.
  rewrite int_digits_app, (int_digits_acc 16 _ b2 b1 E1). simpl.
  rewrite (int_digits_acc 16 _ _ b0 E0), L0, L1. f_equal.
  change (16 ^ Z.of_nat 2)%Z with 256%Z. lia.
Qed.

(** C2: for every accepted payload, with [b0], [b1], [b2] the bytes at
    offsets 5, 6 and 7, the decoded PGN [int(pgn_hex, 16)] (no mask
    applied) is [b2 << 16 | b1 << 8 | b0]. *)
Theorem C2_pgn_byte_order (dataBytes_hex : str) :
  accepted dataBytes_hex ->
  exists (bytes : list Z) (b0 b1 b2 pgn_dec : Z),
    HexStrToListOfInts dataBytes_hex = Ok bytes
    /\ bytes !! 5%nat = Some b0
    /\ bytes !! 6%nat = Some b1
    /\ bytes !! 7%nat = Some b2
    /\ int (pgn_hex_of dataBytes_hex) 16 = Ok pgn_dec
    /\ pgn_dec = Z.lor (Z.lor (Z.shiftl b2 16) (Z.shiftl b1 8)) b0.
Proof.
  intros Hacc. pose proof Hacc as [Hh Hlen].
  destruct (HexStrToListOfInts_hex _ Hh) as (bytes & Hbytes & _).
  destruct (pgn_hex_value _ Hacc)
    as (b0 & b1 & b2 & E0 & E1 & E2 & B0 & B1 & B2 & Hpgn).
  exists bytes, b0, b1, b2, (b2 * 65536 + b1 * 256 + b0)%Z.
  split; [exact Hbytes|].
  split; [apply (HexStrToListOfInts_lookup _ _ 5 _ Hbytes); [lia | exact E0]|].
  split; [apply (HexStrToListOfInts_lookup _ _ 6 _ Hbytes); [lia | exact E1]|].
  split; [apply (HexStrToListOfInts_lookup _ _ 7 _ Hbytes); [lia | exact E2]|].
  split; [exact Hpgn|].
  pose proof (packed_add b2 b1 b0 8 8) as Hpk. unfold packed in Hpk.
  change (Z.of_nat (8 + 8)) with 16%Z in Hpk.
  change (Z.of_nat 8) with 8%Z in Hpk. rewrite Hpk by lia.
  change (2 ^ 16)%Z with 65536%Z. change (2 ^ 8)%Z with 256%Z. reflexivity.
Qed.

Lemma C2_pgn_byte_order_witness :
  accepted (lit "0011EEB00020FF000300FF1021000000FFD0FF")
  /\ exists (bytes : list Z) (b0 b1 b2 pgn_dec : Z),
       HexStrToListOfInts (lit "0011EEB00020FF000300FF1021000000FFD0FF")
         = Ok bytes
       /\ bytes !! 5%nat = Some b0
       /\ bytes !! 6%nat = Some b1
       /\ bytes !! 7%nat = Some b2
       /\ int (pgn_hex_of (lit "0011EEB00020FF000300FF1021000000FFD0FF")) 16
          = Ok pgn_dec
       /\ pgn_dec = Z.lor (Z.lor (Z.shiftl b2 16) (Z.shiftl b1 8)) b0.
Proof.
  assert (H : accepted (lit "0011EEB00020FF000300FF1021000000FFD0FF")).
  { split; [repeat constructor | simpl; lia]. }
  split; [exact H|].
  exact (C2_pgn_byte_order _ H).
Defined.

(** ** Reading and writing cells of the data frame *)

Lemma df_row_at_set_eq (df : DataFrame) (i : nat) (col : string) (v : cell) :
  df_row (df_at_set df i col v) i
  = Some (<[col := v]> (default ∅ (df_row df i))).
Proof.
  induction df as [|[j r] df IH]; simpl.
  - rewrite decide_True by reflexivity. reflexivity.
  - destruct (decide (j = i)) as [->|Hne]; simpl.
    + rewrite decide_True by reflexivity. reflexivity.
    + rewrite decide_False by exact Hne. exact IH.
Qed.

Lemma df_row_at_set_ne (df : DataFrame) (i j : nat) (col : string) (v : cell) :
  j <> i -> df_row (df_at_set df i col v) j = df_row df j.
Proof.
  intros Hji. induction df as [|[k r] df IH]; simpl.
  - rewrite decide_False by congruence. reflexivity.
  - destruct (decide (k = i)) as [->|Hne]; simpl.
    + rewrite !decide_False by congruence. reflexivity.
    + destruct (decide (k = j)); [reflexivity | exact IH].
Qed.

Lemma df_get_set_eq (df : DataFrame) (i : nat) (col : string) (v : cell) :
  df_get (df_at_set df i col v) i col = Some v.
Proof.
  unfold df_get. rewrite df_row_at_set_eq. simpl. apply lookup_insert_eq.
Qed.

Lemma df_get_set_col (df : DataFrame) (i : nat) (col col' : string) (v : cell) :
  col <> col' -> df_get (df_at_set df i col v) i col' = df_get df i col'.
Proof.
  intros Hc. unfold df_get. rewrite df_row_at_set_eq. simpl.
  rewrite lookup_insert_ne by exact Hc.
  destruct (df_row df i); [reflexivity | apply lookup_empty].
Qed.

Lemma df_get_set_row (df : DataFrame) (i j : nat) (col col' : string)
    (v : cell) :
  j <> i -> df_get (df_at_set df i col v) j col' = df_get df j col'.
Proof.
  intros Hji. unfold df_get. rewrite df_row_at_set_ne by exact Hji.
  reflexivity.
Qed.

Lemma df_at_set_labels (df : DataFrame) (i : nat) (col : string) (v : cell) :
  (df_at_set df i col v).*1
  = if decide (i ∈ df.*1) then df.*1 else df.*1 ++ [i].
Proof.
  induction df as [|[j r] df IH].
  - reflexivity.
  - cbn [df_at_set]. rewrite fmap_cons. cbn [fst].
    destruct (decide (j = i)) as [->|Hne].
    + rewrite decide_True by apply list_elem_of_here. reflexivity.
    + rewrite fmap_cons, IH. cbn [fst].
      destruct (decide (i ∈ df.*1)) as [Hin|Hnin].
      * rewrite decide_True by (apply list_elem_of_further, Hin). reflexivity.
      * rewrite decide_False; [reflexivity|].
        intros [E|Hin]%elem_of_cons; [congruence | contradiction].
Qed.

#[local] Ltac df_get_simpl :=
  repeat first
    [ rewrite df_get_set_eq
    | rewrite df_get_set_col by (intros ?; discriminate)
    | rewrite df_get_set_row by assumption ].

(** The annotator writes two columns of row [i] at most. *)
Lemma annotate_other (pgn_df : list pgn_row) (df : DataFrame) (i j : nat)
    (pgn_dec : Z) (col : string) :
  j <> i \/ (col <> "PgnLabel" /\ col <> "PgnInDbc")%string ->
  df_get (annotate pgn_df df i pgn_dec) j col = df_get df j col.
Proof.
  intros H. unfold annotate.
  destruct (pgn_label_row pgn_df pgn_dec) as [|r0 rest]; [reflexivity|].
  destruct (decide (j = i)) as [->|Hji].
  - destruct H as [Hii|[H1 H2]]; [congruence|].
    rewrite !df_get_set_col by congruence. reflexivity.
  - rewrite !df_get_set_row by exact Hji. reflexivity.
Qed.

Lemma annotate_label (pgn_df : list pgn_row) (df : DataFrame) (i : nat)
    (pgn_dec : Z) :
  df_get (annotate pgn_df df i pgn_dec) i "PgnLabel"
  = match pgn_label_row pgn_df pgn_dec with
    | [] => df_get df i "PgnLabel"
    | r0 :: _ => Some (PGN_label r0)
    end.
Proof.
  unfold annotate.
  destruct (pgn_label_row pgn_df pgn_dec) as [|r0 rest]; [reflexivity|].
  df_get_simpl. reflexivity.
Qed.

Lemma annotate_flag (pgn_df : list pgn_row) (df : DataFrame) (i : nat)
    (pgn_dec : Z) :
  df_get (annotate pgn_df df i pgn_dec) i "PgnInDbc"
  = match pgn_label_row pgn_df pgn_dec with
    | [] => df_get df i "PgnInDbc"
    | r0 :: _ => Some (In_DBC r0)
    end.
Proof.
  unfold annotate.
  destruct (pgn_label_row pgn_df pgn_dec) as [|r0 rest]; [reflexivity|].
  df_get_simpl. reflexivity.
Qed.

Lemma bind_Ok_l {A B} (a : A) (f : A -> Result B) : Ok a ≫= f = f a.
Proof. reflexivity. Qed.

(** To evaluate a run and read its result without writing it down. *)
Lemma Ok_match {A} (r : Result A) (P : A -> Prop) :
  match r with Ok a => P a | Raise _ => False end ->
  exists a, r = Ok a /\ P a.
Proof. destruct r as [a|e]; [eauto | contradiction]. Qed.

(** The four timestamp bytes always unpack. *)
Lemma timestamp_unpack (h : str) :
  accepted h ->
  exists b t, bytes_fromhex (slice h 0 8) = Ok b /\ struct_unpack_f b = Ok t.
Proof.
  intros [Hh Hlen].
  destruct (HexStrToListOfInts_hex (slice h 0 8)) as (l & Hl & Ll).
  { apply slice_hex, Hh. }
  rewrite slice_length in Ll by lia. simpl in Ll.
  destruct l as [|b0 [|b1 [|b2 [|b3 [|b4 l]]]]]; try discriminate Ll.
  exists [b0; b1; b2; b3]. eexists. split; [|reflexivity].
  unfold bytes_fromhex. rewrite slice_length by lia. exact Hl.
Qed.

(** Decoding never fails on an accepted payload; every column of row [i]
    after it is known. *)
Lemma parse_can_frame_spec (pgn_df : list pgn_row) (df : DataFrame) (i : nat)
    (h : str) :
  accepted h ->
  exists df' t ID g,
    parse_can_frame pgn_df df i h = Ok df'
    /\ build_ID (slice h 16 18) (pgn_hex_of h) (slice h 18 20) = Ok ID
    /\ int (pgn_hex_of h) 16 = Ok g
    /\ (forall j col, j <> i -> df_get df' j col = df_get df j col)
    /\ (forall col, col ∈ log_columns -> df_get df' i col = df_get df i col)
    /\ df_get df' i "timestamps" = Some (CFloat32 t)
    /\ df_get df' i "echoByte" = Some (CStr (slice h 8 10))
    /\ df_get df' i "PGN" = Some (CStr (pgn_hex_of h))
    /\ df_get df' i "Priority" = Some (CStr (slice h 16 18))
    /\ df_get df' i "Source" = Some (CStr (slice h 18 20))
    /\ df_get df' i "Destination" = Some (CStr (slice h 20 22))
    /\ df_get df' i "DataBytes" = Some (CStr (slice h 22 38))
    /\ df_get df' i "DataLength" = Some (CInt 8)
    /\ df_get df' i "ID" = Some (CStr ID)
    /\ (forall col,
          col ∈ ["BusChannel"; "IDE"; "DLC"; "Dir"; "EDL"; "BRS"]%string ->
          df_get df' i col = Some (CInt 1))
    /\ df_get df' i "PgnLabel"
       = match pgn_label_row pgn_df g with
         | [] => df_get df i "PgnLabel"
         | r0 :: _ => Some (PGN_label r0)
         end
    /\ df_get df' i "PgnInDbc"
       = match pgn_label_row pgn_df g with
         | [] => df_get df i "PgnInDbc"
         | r0 :: _ => Some (In_DBC r0)
         end.
Proof.
  intros Hacc. pose proof Hacc as [Hh Hlen].
  destruct (timestamp_unpack h Hacc) as (b & t & Hb & Ht).
  destruct (int_slice h 16 18 Hh) as (p & Hp & _); [lia|].
  destruct (int_slice h 18 20 Hh) as (s & Hs & _); [lia|].
  destruct (pgn_hex_value h Hacc) as (b0 & b1 & b2 & _ & _ & _ & _ & _ & _ & Hg).
  destruct (build_ID_value _ _ _ _ _ _ Hp Hg Hs) as (ID & HID & _).
  eexists _, t, ID, _.
  split.
  { unfold parse_can_frame.
    rewrite Hb, bind_Ok_l, Ht, bind_Ok_l, HID, bind_Ok_l, Hg, bind_Ok_l.
    reflexivity. }
  split; [exact HID|]. split; [exact Hg|].
  split.
  { intros j col Hj. rewrite annotate_other by (left; exact Hj).
    df_get_simpl. reflexivity. }
  split.
  { intros col Hcol. unfold log_columns in Hcol.
    repeat (apply elem_of_cons in Hcol as [->|Hcol]);
      [..|by apply elem_of_nil in Hcol];
      (rewrite annotate_other by (right; split; discriminate));
      df_get_simpl; reflexivity. }
  repeat (split;
    [rewrite annotate_other by (right; split; discriminate);
     df_get_simpl; try reflexivity|]).
  { rewrite slice_length by lia. reflexivity. }
  split.
  { intros col Hcol.
    repeat (apply elem_of_cons in Hcol as [->|Hcol]);
      [..|by apply elem_of_nil in Hcol];
      (rewrite annotate_other by (right; split; discriminate));
      df_get_simpl; reflexivity. }
  rewrite annotate_label, annotate_flag. df_get_simpl.
  split; reflexivity.
Qed.

(** ** The log-line parser (lines 47-82) *)

Lemma take_while_Forall (f : ascii -> bool) (s : str) :
  Forall (fun c => f c = true) (take_while f s).
Proof.
  induction s as [|c s IH]; simpl; [constructor|].
  destruct (f c) eqn:E; constructor; assumption.
Qed.

Lemma is_HEX_not_space (c : ascii) : is_HEX c = true -> c <> " ".
Proof. intros H ->. discriminate H. Qed.

Lemma remove_spaces_cons (c : ascii) (s : str) :
  remove_spaces (c :: s)
  = if Ascii.eqb c " " then remove_spaces s else c :: remove_spaces s.
Proof.
  unfold remove_spaces. rewrite filter_cons.
  destruct (Ascii.eqb_spec c " ") as [->|Hne].
  - rewrite decide_False by (intros H; apply H; reflexivity). reflexivity.
  - rewrite decide_True by exact Hne. reflexivity.
Qed.

Lemma remove_spaces_hex (s : str) :
  Forall (fun c => is_HEX_or_space c = true) s ->
  Forall (fun c => is_HEX c = true) (remove_spaces s).
Proof.
  induction 1 as [|c s Hc _ IH]; [constructor|].
  rewrite remove_spaces_cons. destruct (Ascii.eqb c " ") eqn:E; [exact IH|].
  constructor; [|exact IH].
  unfold is_HEX_or_space in Hc. rewrite E, orb_false_r in Hc. exact Hc.
Qed.

(** Each group that [findall] counts leaves two digits in the payload. *)
Lemma findall_groups_length (s : str) :
  (2 * length (re_findall_groups s) <= length (remove_spaces s))%nat.
Proof.
  remember (length s) as n eqn:Hn.
  revert s Hn. induction n as [n IH] using lt_wf_ind. intros s Hn.
  destruct s as [|c0 [|c1 [|c2 r]]]; [simpl; lia..|].
  cbn [re_findall_groups].
  destruct (Ascii.eqb c0 " " && is_HEX c1 && is_HEX c2) eqn:E.
  - apply andb_prop in E as [E H2]. apply andb_prop in E as [H0 H1].
    rewrite !remove_spaces_cons, H0.
    rewrite (proj2 (Ascii.eqb_neq c1 " ")) by (apply is_HEX_not_space, H1).
    rewrite (proj2 (Ascii.eqb_neq c2 " ")) by (apply is_HEX_not_space, H2).
    specialize (IH (length r) ltac:(simpl in Hn; lia) r eq_refl).
    simpl. lia.
  - specialize (IH (length (c1 :: c2 :: r)) ltac:(simpl in Hn |- *; lia)
                  (c1 :: c2 :: r) eq_refl).
    rewrite (remove_spaces_cons c0). destruct (Ascii.eqb c0 " "); simpl in *; lia.
Qed.

(** The payload captured by the pattern of line 77, blanks removed, is
    made of [[0-9A-F]] digits, two at least for each counted group. *)
Lemma data_section_accepted (line g : str) :
  re_search_lit_class (lit "Data: ") is_HEX_or_space line = Some g ->
  (19 <= length (re_findall_groups g))%nat ->
  accepted (remove_spaces g).
Proof.
  unfold re_search_lit_class. intros Hg Hn.
  destruct (find (lit "Data: ") line) as [k|]; [|discriminate].
  injection Hg as <-. split.
  - apply remove_spaces_hex, take_while_Forall.
  - pose proof (findall_groups_length
                  (take_while is_HEX_or_space (drop (k + 6) line))). lia.
Qed.

Lemma group1_Some (g : str) : group1 (Some g) = Ok g.
Proof. reflexivity. Qed.

Lemma parse_log_entry_ok (df : DataFrame) (i : nat) (line ts id ret sz g : str) :
  re_search_timestamp line = Some ts ->
  re_search_lit_class (lit "ID = ") is_digit line = Some id ->
  re_search_lit_class (lit "Ret = ") is_digit line = Some ret ->
  re_search_lit_class (lit "Sz = ") is_digit line = Some sz ->
  re_search_lit_class (lit "Data: ") is_HEX_or_space line = Some g ->
  exists df',
    parse_log_entry df i line
      = Ok (df', remove_spaces g, length (re_findall_groups g))
    /\ (forall j col, j <> i -> df_get df' j col = df_get df j col)
    /\ (forall col, col ∉ log_columns -> df_get df' i col = df_get df i col)
    /\ df_get df' i "Original" = Some (CStr (strip line))
    /\ df_get df' i "LogTimestamp" = Some (CStr ts)
    /\ df_get df' i "LogID" = Some (CStr id)
    /\ df_get df' i "Ret" = Some (CStr ret)
    /\ df_get df' i "Sz" = Some (CStr sz)
    /\ df_get df' i "Blk"
       = match re_search_lit_class (lit "Blk = ") is_digit line with
         | Some blk => Some (CStr blk)
         | None => df_get df i "Blk"
         end
    /\ df_get df' i "LogDataBytes" = Some (CStr (remove_spaces g)).
Proof.
  intros Hts Hid Hret Hsz Hg.
  eexists. split.
  { unfold parse_log_entry.
    rewrite Hts, Hid, Hret, Hsz, Hg, !group1_Some, !bind_Ok_l. reflexivity. }
  destruct (re_search_lit_class (lit "Blk = ") is_digit line) as [blk|].
  - split; [intros j col Hj; df_get_simpl; reflexivity|].
    split.
    { intros col Hcol. unfold log_columns in Hcol.
      rewrite !not_elem_of_cons in Hcol.
      destruct Hcol as (? & ? & ? & ? & ? & ? & ? & _).
      rewrite !df_get_set_col by congruence. reflexivity. }
    repeat split; df_get_simpl; reflexivity.
  - split; [intros j col Hj; df_get_simpl; reflexivity|].
    split.
    { intros col Hcol. unfold log_columns in Hcol.
      rewrite !not_elem_of_cons in Hcol.
      destruct Hcol as (? & ? & ? & ? & ? & ? & ? & _).
      rewrite !df_get_set_col by congruence. reflexivity. }
    repeat split; df_get_simpl; reflexivity.
Qed.

Lemma parse_log_entry_raise (df : DataFrame) (i : nat) (line : str) :
  re_search_timestamp line = None
  \/ re_search_lit_class (lit "ID = ") is_digit line = None
  \/ re_search_lit_class (lit "Ret = ") is_digit line = None
  \/ re_search_lit_class (lit "Sz = ") is_digit line = None
  \/ re_search_lit_class (lit "Data: ") is_HEX_or_space line = None ->
  parse_log_entry df i line = Raise AttributeError.
Proof.
  intros H. unfold parse_log_entry.
  destruct (re_search_timestamp line); [|reflexivity].
  destruct (re_search_lit_class (lit "ID = ") is_digit line); [|reflexivity].
  destruct (re_search_lit_class (lit "Ret = ") is_digit line); [|reflexivity].
  destruct (re_search_lit_class (lit "Sz = ") is_digit line); [|reflexivity].
  destruct (re_search_lit_class (lit "Data: ") is_HEX_or_space line);
    [|reflexivity].
  destruct H as [H|[H|[H|[H|H]]]]; discriminate H.
Qed.

(** ** One iteration of the loop *)

Lemma search_fails_dec (line : str) :
  search_fails line
  \/ exists ts id ret sz g,
       re_search_timestamp line = Some ts
       /\ re_search_lit_class (lit "ID = ") is_digit line = Some id
       /\ re_search_lit_class (lit "Ret = ") is_digit line = Some ret
       /\ re_search_lit_class (lit "Sz = ") is_digit line = Some sz
       /\ re_search_lit_class (lit "Data: ") is_HEX_or_space line = Some g.
Proof.
  unfold search_fails.
  destruct (re_search_timestamp line) as [ts|]; [|left; left; reflexivity].
  destruct (re_search_lit_class (lit "ID = ") is_digit line) as [id|];
    [|left; right; left; reflexivity].
  destruct (re_search_lit_class (lit "Ret = ") is_digit line) as [ret|];
    [|left; right; right; left; reflexivity].
  destruct (re_search_lit_class (lit "Sz = ") is_digit line) as [sz|];
    [|left; right; right; right; left; reflexivity].
  destruct (re_search_lit_class (lit "Data: ") is_HEX_or_space line) as [g|];
    [|left; right; right; right; right; reflexivity].
  right. exists ts, id, ret, sz, g. repeat split; reflexivity.
Qed.

Section LoopFacts.

Variable pgn_df : list pgn_row.

Lemma loop_body_skip (df : DataFrame) (i : nat) (line : str) :
  contains (lit "Data:") line = false ->
  loop_body pgn_df (df, i) line = Ok (df, i).
Proof. intros H. unfold loop_body. rewrite H. reflexivity. Qed.

(** A failed search raises [AttributeError] out of the loop body. *)
Lemma loop_body_raise (df : DataFrame) (i : nat) (line : str) :
  contains (lit "Data:") line = true ->
  search_fails line ->
  loop_body pgn_df (df, i) line = Raise AttributeError.
Proof.
  intros Hd Hf. unfold loop_body. rewrite Hd. cbn [negb].
  rewrite parse_log_entry_raise by exact Hf. reflexivity.
Qed.

(** The gate of line 82: fewer than 19 groups. *)
Lemma loop_body_short (df df1 : DataFrame) (i n : nat) (line h : str) :
  contains (lit "Data:") line = true ->
  parse_log_entry df i line = Ok (df1, h, n) ->
  (n < 19)%nat ->
  loop_body pgn_df (df, i) line = Ok (df1, i).
Proof.
  intros Hd Hp Hn. unfold loop_body. rewrite Hd, Hp. cbn [negb].
  rewrite bind_Ok_l. rewrite (proj2 (Nat.ltb_lt n 19) Hn). reflexivity.
Qed.

Lemma loop_body_full (df df1 df2 : DataFrame) (i n : nat) (line h : str) :
  contains (lit "Data:") line = true ->
  parse_log_entry df i line = Ok (df1, h, n) ->
  (19 <= n)%nat ->
  parse_can_frame pgn_df df1 i h = Ok df2 ->
  loop_body pgn_df (df, i) line = Ok (df2, S i).
Proof.
  intros Hd Hp Hn Hf. unfold loop_body. rewrite Hd, Hp. cbn [negb].
  rewrite bind_Ok_l. rewrite (proj2 (Nat.ltb_ge n 19) Hn), Hf. reflexivity.
Qed.

(** The four ways through the loop body. *)
Lemma loop_body_cases (df : DataFrame) (i : nat) (line : str) :
  (contains (lit "Data:") line = false
   /\ loop_body pgn_df (df, i) line = Ok (df, i))
  \/ (contains (lit "Data:") line = true /\ search_fails line
      /\ loop_body pgn_df (df, i) line = Raise AttributeError)
  \/ (exists g df1,
        contains (lit "Data:") line = true
        /\ re_search_lit_class (lit "Data: ") is_HEX_or_space line = Some g
        /\ parse_log_entry df i line
           = Ok (df1, remove_spaces g, length (re_findall_groups g))
        /\ (length (re_findall_groups g) < 19)%nat
        /\ loop_body pgn_df (df, i) line = Ok (df1, i))
  \/ (exists g df1 df2,
        contains (lit "Data:") line = true
        /\ re_search_lit_class (lit "Data: ") is_HEX_or_space line = Some g
        /\ parse_log_entry df i line
           = Ok (df1, remove_spaces g, length (re_findall_groups g))
        /\ (19 <= length (re_findall_groups g))%nat
        /\ accepted (remove_spaces g)
        /\ parse_can_frame pgn_df df1 i (remove_spaces g) = Ok df2
        /\ loop_body pgn_df (df, i) line = Ok (df2, S i)).
Proof.
  destruct (contains (lit "Data:") line) eqn:Hd.
  2:{ left. split; [reflexivity | apply loop_body_skip, Hd]. }
  right. destruct (search_fails_dec line)
    as [Hf|(ts & id & ret & sz & g & Hts & Hid & Hret & Hsz & Hg)].
  { left. split; [reflexivity|]. split; [exact Hf|].
    apply loop_body_raise; assumption. }
  right.
  destruct (parse_log_entry_ok df i line _ _ _ _ _ Hts Hid Hret Hsz Hg)
    as (df1 & Hp & _).
  destruct (Nat.lt_ge_cases (length (re_findall_groups g)) 19) as [Hn|Hn].
  - left. exists g, df1. repeat (split; [first [reflexivity | assumption]|]).
    eapply loop_body_short; eassumption.
  - right. pose proof (data_section_accepted line g Hg Hn) as Hacc.
    destruct (parse_can_frame_spec pgn_df df1 i _ Hacc)
      as (df2 & t & ID & pg & Hf & _).
    exists g, df1, df2. repeat (split; [first [reflexivity | assumption]|]).
    eapply loop_body_full; eassumption.
Qed.

Lemma loop_body_exn (st : DataFrame * nat) (line : str) (e : exn) :
  loop_body pgn_df st line = Raise e -> e = AttributeError.
Proof.
  destruct st as [df i].
  destruct (loop_body_cases df i line)
    as [[_ H]|[(_ & _ & H)|[(g & df1 & _ & _ & _ & _ & H)
       |(g & df1 & df2 & _ & _ & _ & _ & _ & _ & H)]]];
    rewrite H; congruence.
Qed.

Lemma run_loop_app (st : DataFrame * nat) (l1 l2 : list str) :
  run_loop pgn_df st (l1 ++ l2)
  = run_loop pgn_df st l1 ≫= fun st' => run_loop pgn_df st' l2.
Proof.
  revert st. induction l1 as [|line l1 IH]; intros st; simpl.
  - reflexivity.
  - destruct (loop_body pgn_df st line) as [st'|e]; simpl; [apply IH|].
    reflexivity.
Qed.

Lemma run_loop_exn (st : DataFrame * nat) (lines : list str) (e : exn) :
  run_loop pgn_df st lines = Raise e -> e = AttributeError.
Proof.
  revert st. induction lines as [|line lines IH]; intros st; simpl.
  - discriminate.
  - destruct (loop_body pgn_df st line) as [st'|e'] eqn:Hb; simpl.
    + apply IH.
    + intros [= <-]. eapply loop_body_exn, Hb.
Qed.

End LoopFacts.

(** ** Claims about the frame decoder *)

Lemma scenario_payload_accepted : accepted scenario_payload.
Proof.
  split; [|vm_compute; lia].
  apply Forall_forall. intros c Hc. apply list_elem_of_In in Hc.
  vm_compute in Hc. intuition (subst; reflexivity).
Qed.

(** C3: on the payload [0011EEB00020FF000300FF1021000000FFD0FF] the
    decoder gives priority 3, source 0, PGN 65312 (the stored bytes
    [20 FF 00] read in reverse order), destination 0xFF, and the
    identifier is [0x0CFF2000], 218046464 as an unsigned integer. *)
Theorem C3_concrete_scenario (pgn_df : list pgn_row) :
  exists df',
    parse_can_frame pgn_df [] 0 scenario_payload = Ok df'
    /\ df_get df' 0 "Priority" = Some (CStr (lit "03"))
    /\ int (lit "03") 16 = Ok 3%Z
    /\ df_get df' 0 "Source" = Some (CStr (lit "00"))
    /\ int (lit "00") 16 = Ok 0%Z
    /\ slice scenario_payload 10 16 = lit "20FF00"
    /\ df_get df' 0 "PGN" = Some (CStr (lit "00FF20"))
    /\ int (lit "00FF20") 16 = Ok 65312%Z
    /\ df_get df' 0 "Destination" = Some (CStr (lit "FF"))
    /\ int (lit "FF") 16 = Ok 255%Z
    /\ df_get df' 0 "ID" = Some (CStr (lit "CFF2000"))
    /\ CanIdentifier (lit "CFF2000") = Ok 218046464%Z
    /\ 218046464%Z = 0x0CFF2000%Z.
Proof.
  destruct (parse_can_frame_spec pgn_df [] 0 _ scenario_payload_accepted)
    as (df' & t & ID & g & Hf & HID & _ & _ & _ & _ & _ & Hpgn & Hprio & Hsrc
        & Hdst & _ & _ & Hid & _).
  assert (ID = lit "CFF2000") as ->.
  { vm_compute in HID. injection HID as <-. reflexivity. }
  exists df'. repeat split; try reflexivity; assumption.
Qed.

(** C5 (as stated): with the stored PGN bytes [00 00 04] the PGN column
    holds [040000], that is 2^18, above 2^18 - 1. *)
Lemma C5_pgn_above_18_bits_counterexample :
  accepted wide_pgn_payload
  /\ (exists df',
        parse_can_frame [] [] 0 wide_pgn_payload = Ok df'
        /\ df_get df' 0 "PGN" = Some (CStr (lit "040000")))
  /\ int (lit "040000") 16 = Ok 262144%Z
  /\ ~ (262144 <= 2 ^ 18 - 1)%Z.
Proof.
  split; [|split; [|split]].
  - split; [|vm_compute; lia].
    apply Forall_forall. intros c Hc. apply list_elem_of_In in Hc.
    vm_compute in Hc. intuition (subst; reflexivity).
  - apply Ok_match. vm_compute. reflexivity.
  - reflexivity.
  - vm_compute. congruence.
Qed.

(** C5 (amended): the PGN column of every decoded frame holds the whole
    byte-reversed 24-bit quantity, in [0, 2^24-1]; no bit is masked, and
    the PGN is within [0, 2^18-1] exactly when the third stored PGN byte
    is at most 3. *)
Theorem C5_pgn_is_24_bits (pgn_df : list pgn_row) (df : DataFrame) (i : nat)
    (dataBytes_hex : str) :
  accepted dataBytes_hex ->
  exists df' pgn_hex pgn b2,
    parse_can_frame pgn_df df i dataBytes_hex = Ok df'
    /\ df_get df' i "PGN" = Some (CStr pgn_hex)
    /\ int pgn_hex 16 = Ok pgn
    /\ (0 <= pgn <= 2 ^ 24 - 1)%Z
    /\ int (slice dataBytes_hex 14 16) 16 = Ok b2
    /\ ((pgn <= 2 ^ 18 - 1)%Z <-> (b2 <= 3)%Z).
Proof.
  intros Hacc.
  destruct (parse_can_frame_spec pgn_df df i _ Hacc)
    as (df' & t & ID & g & Hf & _ & Hg & _ & _ & _ & _ & Hpgn & _).
  destruct (pgn_hex_value _ Hacc)
    as (b0 & b1 & b2 & _ & _ & E2 & B0 & B1 & B2 & Hv).
  rewrite Hv in Hg. injection Hg as <-.
  exists df', (pgn_hex_of dataBytes_hex), (b2 * 65536 + b1 * 256 + b0)%Z, b2.
  repeat (split; [first [assumption | lia]|]).
  change (2 ^ 18 - 1)%Z with 262143%Z. lia.
Qed.

Lemma C5_pgn_is_24_bits_witness :
  accepted wide_pgn_payload
  /\ exists df' pgn_hex pgn b2,
       parse_can_frame [] [] 0 wide_pgn_payload = Ok df'
       /\ df_get df' 0 "PGN" = Some (CStr pgn_hex)
       /\ int pgn_hex 16 = Ok pgn
       /\ (0 <= pgn <= 2 ^ 24 - 1)%Z
       /\ int (slice wide_pgn_payload 14 16) 16 = Ok b2
       /\ ((pgn <= 2 ^ 18 - 1)%Z <-> (b2 <= 3)%Z).
Proof.
  assert (H : accepted wide_pgn_payload).
  { split; [|vm_compute; lia].
    apply Forall_forall. intros c Hc. apply list_elem_of_In in Hc.
    vm_compute in Hc. intuition (subst; reflexivity). }
  split; [exact H|].
  exact (C5_pgn_is_24_bits [] [] 0 wide_pgn_payload H).
Defined.

(** ** Claims about failed searches and dropped lines *)

(** C6 (as stated): a line with the marker but without [Ret = ] is not
    dropped; the run stops with [AttributeError], and the complete line
    that follows is never processed (alone, it gives a frame). *)
Lemma C6_missing_field_aborts_counterexample :
  contains (lit "Data:") no_ret_line = true
  /\ re_search_lit_class (lit "Ret = ") is_digit no_ret_line = None
  /\ main_df [] [no_ret_line; example_line] = Raise AttributeError
  /\ (exists df, main_df [] [example_line] = Ok df /\ df.*1 = [0%nat]).
Proof.
  split; [reflexivity|]. split; [reflexivity|].
  split; [vm_compute; reflexivity|].
  apply Ok_match. vm_compute. reflexivity.
Qed.

(** C6 (amended): a line that holds the marker and on which the pattern
    of a required field (timestamp, ID, Ret, Sz, or the payload pattern
    itself) finds no match raises [AttributeError]; nothing catches it,
    so the run ends there, whatever comes before or after the line, and
    no frame is exported. *)
Theorem C6_failed_search_aborts_run
    (pgn_df : list pgn_row) (before after : list str) (line : str) :
  contains (lit "Data:") line = true ->
  search_fails line ->
  main_df pgn_df (before ++ line :: after) = Raise AttributeError.
Proof.
  intros Hd Hf. unfold main_df. rewrite run_loop_app.
  destruct (run_loop pgn_df ([], 0%nat) before) as [[df i]|e] eqn:Hb.
  - rewrite bind_Ok_l. cbn [run_loop].
    rewrite (loop_body_raise pgn_df df i line Hd Hf). reflexivity.
  - apply run_loop_exn in Hb as ->. reflexivity.
Qed.

Lemma C6_failed_search_aborts_run_witness :
  contains (lit "Data:") no_ret_line = true
  /\ search_fails no_ret_line
  /\ main_df [] ([example_line] ++ no_ret_line :: [example_line])
     = Raise AttributeError.
Proof.
  assert (Hd : contains (lit "Data:") no_ret_line = true) by reflexivity.
  assert (Hf : search_fails no_ret_line).
  { right. right. left. reflexivity. }
  split; [exact Hd|]. split; [exact Hf|].
  exact (C6_failed_search_aborts_run [] [example_line] [example_line]
           no_ret_line Hd Hf).
Defined.

(** ** The invariant of the loop *)

Lemma labels_with_in (ls : list nat) (i : nat) :
  i ∈ labels_with ls i.
Proof.
  unfold labels_with. destruct (decide (i ∈ ls)) as [H|H]; [exact H|].
  apply elem_of_app. right. apply list_elem_of_here.
Qed.

Lemma labels_with_idemp (ls : list nat) (i : nat) :
  labels_with (labels_with ls i) i = labels_with ls i.
Proof.
  unfold labels_with at 1.
  rewrite decide_True by apply labels_with_in. reflexivity.
Qed.

Lemma df_at_set_labels_with (df : DataFrame) (i : nat) (col : string)
    (v : cell) :
  (df_at_set df i col v).*1 = labels_with df.*1 i.
Proof. apply df_at_set_labels. Qed.

Lemma df_get_None_unlabelled (df : DataFrame) (j : nat) (col : string) :
  j ∉ df.*1 -> df_get df j col = None.
Proof.
  intros Hj. unfold df_get.
  assert (Hrow : df_row df j = None).
  { induction df as [|[k r] df IH]; [reflexivity|].
    rewrite fmap_cons, not_elem_of_cons in Hj. destruct Hj as [Hne Hj].
    cbn [df_row fst] in *. rewrite decide_False by congruence.
    apply IH, Hj. }
  rewrite Hrow. reflexivity.
Qed.

Lemma labels_with_seq (ls : list nat) (i : nat) :
  ls = seq 0 i \/ ls = seq 0 (S i) -> labels_with ls i = seq 0 (S i).
Proof.
  unfold labels_with. intros [->| ->].
  - rewrite decide_False by (rewrite elem_of_seq; lia).
    rewrite seq_S. reflexivity.
  - rewrite decide_True by (rewrite elem_of_seq; lia). reflexivity.
Qed.

#[local] Ltac bind_inv :=
  repeat match goal with
         | H : _ ≫= _ = Ok _ |- _ =>
             let a := fresh "a" in
             let E := fresh "E" in
             apply bind_Ok in H as (a & E & H)
         end.

Lemma parse_log_entry_labels (df df' : DataFrame) (i n : nat) (line h : str) :
  parse_log_entry df i line = Ok (df', h, n) ->
  df'.*1 = labels_with df.*1 i.
Proof.
  unfold parse_log_entry. intros H. bind_inv. injection H as <- _ _.
  case_match;
    rewrite !df_at_set_labels_with, !labels_with_idemp; reflexivity.
Qed.

Lemma annotate_labels (pgn_df : list pgn_row) (df : DataFrame) (i : nat)
    (pgn_dec : Z) :
  i ∈ df.*1 -> (annotate pgn_df df i pgn_dec).*1 = df.*1.
Proof.
  intros Hi. unfold annotate.
  destruct (pgn_label_row pgn_df pgn_dec); [reflexivity|].
  assert (Hl : labels_with df.*1 i = df.*1).
  { unfold labels_with. rewrite decide_True by exact Hi. reflexivity. }
  rewrite !df_at_set_labels_with, !Hl. reflexivity.
Qed.

Lemma parse_can_frame_labels (pgn_df : list pgn_row) (df df' : DataFrame)
    (i : nat) (h : str) :
  parse_can_frame pgn_df df i h = Ok df' ->
  df'.*1 = labels_with df.*1 i.
Proof.
  unfold parse_can_frame. intros H. bind_inv. injection H as <-.
  rewrite annotate_labels.
  - rewrite !df_at_set_labels_with, !labels_with_idemp. reflexivity.
  - rewrite df_at_set_labels_with. apply labels_with_in.
Qed.

Section Invariant.

Variable pgn_df : list pgn_row.

Lemma annotated_ext (df df' : DataFrame) (j : nat) :
  (forall col, df_get df' j col = df_get df j col) ->
  annotated pgn_df df j -> annotated pgn_df df' j.
Proof.
  intros Heq (gh & g & H1 & H2 & H3 & H4).
  exists gh, g. rewrite !Heq. auto.
Qed.

Lemma loop_inv_init : loop_inv pgn_df ([], 0%nat).
Proof.
  split; [left; reflexivity|]. split; [reflexivity|].
  intros j Hj. simpl in Hj. lia.
Qed.

Lemma loop_body_inv (st st' : DataFrame * nat) (line : str) :
  loop_inv pgn_df st ->
  loop_body pgn_df st line = Ok st' ->
  loop_inv pgn_df st'.
Proof.
  destruct st as [df i]. intros (Hlab & Hclean & Hann) Hb.
  cbn [fst snd] in *.
  destruct (loop_body_cases pgn_df df i line)
    as [[_ H]|[(_ & _ & H)|[(g & df1 & _ & Hg & Hp & Hn & H)
       |(g & df1 & df2 & _ & Hg & Hp & Hn & Hacc & Hf & H)]]];
    rewrite H in Hb; [| discriminate | |]; injection Hb as <-.
  - repeat split; assumption.
  - pose proof (parse_log_entry_labels _ _ _ _ _ _ Hp) as Hl1.
    destruct (search_fails_dec line)
      as [Hfail|(ts & id & ret & sz & g' & Hts & Hid & Hret & Hsz & Hg')].
    { rewrite parse_log_entry_raise in Hp by exact Hfail. discriminate. }
    destruct (parse_log_entry_ok df i line _ _ _ _ _ Hts Hid Hret Hsz Hg')
      as (df1' & Hp' & Hrows & Hcols & _).
    rewrite Hp in Hp'. injection Hp' as <- _ _.
    split; [|split]; cbn [fst snd].
    + right. rewrite Hl1. apply labels_with_seq, Hlab.
    + intros col Hcol. rewrite Hcols by exact Hcol. apply Hclean, Hcol.
    + intros j Hj. apply (annotated_ext df); [|apply Hann, Hj].
      intros col. apply Hrows. lia.
  - pose proof (parse_log_entry_labels _ _ _ _ _ _ Hp) as Hl1.
    pose proof (parse_can_frame_labels _ _ _ _ _ Hf) as Hl2.
    destruct (search_fails_dec line)
      as [Hfail|(ts & id & ret & sz & g' & Hts & Hid & Hret & Hsz & Hg')].
    { rewrite parse_log_entry_raise in Hp by exact Hfail. discriminate. }
    destruct (parse_log_entry_ok df i line _ _ _ _ _ Hts Hid Hret Hsz Hg')
      as (df1' & Hp' & Hrows & Hcols & _).
    rewrite Hp in Hp'. injection Hp' as <- _ _.
    destruct (parse_can_frame_spec pgn_df df1 i _ Hacc)
      as (df2' & t & ID & pg & Hf' & _ & Hpg & Hrows2 & _ & _ & _ & Hpgn
          & _ & _ & _ & _ & _ & _ & _ & Hlabel & Hflag).
    rewrite Hf in Hf'. injection Hf' as <-.
    assert (Hl : df2.*1 = seq 0 (S i)).
    { rewrite Hl2, Hl1, labels_with_idemp. apply labels_with_seq, Hlab. }
    split; [|split]; cbn [fst snd].
    + left. exact Hl.
    + intros col _. apply df_get_None_unlabelled.
      rewrite Hl, elem_of_seq. lia.
    + intros j Hj. destruct (decide (j = i)) as [->|Hne].
      * exists (pgn_hex_of (remove_spaces g)), pg.
        split; [exact Hpgn|]. split; [exact Hpg|].
        rewrite Hlabel, Hflag.
        rewrite !Hcols
          by (unfold log_columns; intros Hin;
              repeat (apply elem_of_cons in Hin as [Hin|Hin];
                      [discriminate Hin|]);
              by apply elem_of_nil in Hin).
        rewrite !Hclean
          by (unfold log_columns; intros Hin;
              repeat (apply elem_of_cons in Hin as [Hin|Hin];
                      [discriminate Hin|]);
              by apply elem_of_nil in Hin).
        destruct (pgn_label_row pgn_df pg); split; reflexivity.
      * apply (annotated_ext df); [|apply Hann; lia].
        intros col. rewrite Hrows2 by exact Hne. apply Hrows. exact Hne.
Qed.

Lemma run_loop_inv (st st' : DataFrame * nat) (lines : list str) :
  loop_inv pgn_df st ->
  run_loop pgn_df st lines = Ok st' ->
  loop_inv pgn_df st'.
Proof.
  revert st. induction lines as [|line lines IH]; intros st Hinv; simpl.
  - intros [= <-]. exact Hinv.
  - intros (st1 & H1 & H2)%bind_Ok.
    eapply IH; [|exact H2]. eapply loop_body_inv; eassumption.
Qed.

End Invariant.

(** ** Claims about dropped lines *)

(** A line that is dropped by the gate of line 82 after a run that ended
    in [(df, i)] leaves row [i] in the exported frame, with its log
    columns and nothing else. *)
Lemma dropped_line_leaves_row (pgn_df : list pgn_row) (lines : list str)
    (df : DataFrame) (i : nat) (line ts id ret sz g : str) :
  run_loop pgn_df ([], 0%nat) lines = Ok (df, i) ->
  contains (lit "Data:") line = true ->
  re_search_timestamp line = Some ts ->
  re_search_lit_class (lit "ID = ") is_digit line = Some id ->
  re_search_lit_class (lit "Ret = ") is_digit line = Some ret ->
  re_search_lit_class (lit "Sz = ") is_digit line = Some sz ->
  re_search_lit_class (lit "Data: ") is_HEX_or_space line = Some g ->
  (length (re_findall_groups g) < 19)%nat ->
  exists df',
    main_df pgn_df (lines ++ [line]) = Ok df'
    /\ df'.*1 = seq 0 (S i)
    /\ df_get df' i "Original" = Some (CStr (strip line))
    /\ df_get df' i "LogTimestamp" = Some (CStr ts)
    /\ df_get df' i "LogID" = Some (CStr id)
    /\ df_get df' i "Ret" = Some (CStr ret)
    /\ df_get df' i "Sz" = Some (CStr sz)
    /\ df_get df' i "LogDataBytes" = Some (CStr (remove_spaces g))
    /\ (forall col, col ∉ log_columns -> df_get df' i col = None).
Proof.
  intros Hrun Hd Hts Hid Hret Hsz Hg Hn.
  pose proof (run_loop_inv pgn_df _ _ _ (loop_inv_init pgn_df) Hrun)
    as (Hlab & Hclean & _). cbn [fst snd] in *.
  destruct (parse_log_entry_ok df i line _ _ _ _ _ Hts Hid Hret Hsz Hg)
    as (df' & Hp & _ & Hcols & HO & HT & HI & HR & HS & _ & HD).
  exists df'. split.
  { unfold main_df. rewrite run_loop_app, Hrun, bind_Ok_l. cbn [run_loop].
    rewrite (loop_body_short pgn_df df df' i _ line _ Hd Hp Hn).
    reflexivity. }
  split.
  { rewrite (parse_log_entry_labels _ _ _ _ _ _ Hp).
    apply labels_with_seq, Hlab. }
  repeat (split; [assumption|]).
  intros col Hcol. rewrite Hcols by exact Hcol. apply Hclean, Hcol.
Qed.

Lemma example_line_run (pgn_df : list pgn_row) :
  exists df, run_loop pgn_df ([], 0%nat) [example_line] = Ok (df, 1%nat).
Proof.
  cbn [run_loop].
  destruct (loop_body_cases pgn_df [] 0 example_line)
    as [[H _]|[(_ & H & _)|[(g & df1 & _ & Hg & _ & Hn & _)
       |(g & df1 & df2 & _ & _ & _ & _ & _ & _ & Hb)]]].
  - discriminate H.
  - exfalso. destruct H as [H|[H|[H|[H|H]]]]; discriminate H.
  - exfalso. vm_compute in Hg. injection Hg as <-. vm_compute in Hn. lia.
  - exists df2. rewrite Hb. reflexivity.
Qed.

(** C7 (the code at the failing input): the example line followed by a
    line with three payload bytes.  The second line is dropped by the
    gate of line 82, and it is the last eligible line: the cells written
    before the gate stay in the exported frame, as a second row that has
    the log columns and none of the decoded ones. *)
Theorem C7_partial_row_left_at_end (pgn_df : list pgn_row) :
  exists df,
    main_df pgn_df [example_line; short_line] = Ok df
    /\ df.*1 = [0%nat; 1%nat]
    /\ df_get df 1 "Original" = Some (CStr (strip short_line))
    /\ df_get df 1 "LogTimestamp" = Some (CStr (lit "000001.226604"))
    /\ df_get df 1 "LogID" = Some (CStr (lit "00"))
    /\ df_get df 1 "Ret" = Some (CStr (lit "0019"))
    /\ df_get df 1 "Sz" = Some (CStr (lit "02048"))
    /\ df_get df 1 "LogDataBytes" = Some (CStr (lit "0011EE"))
    /\ (forall col,
          col ∈ ["timestamps"; "echoByte"; "PGN"; "Priority"; "Source";
                 "Destination"; "DataBytes"; "DataLength"; "ID";
                 "BusChannel"; "IDE"; "DLC"; "Dir"; "EDL"; "BRS";
                 "PgnLabel"; "PgnInDbc"]%string ->
          df_get df 1 col = None).
Proof.
  destruct (example_line_run pgn_df) as [df0 Hrun].
  destruct (dropped_line_leaves_row pgn_df [example_line] df0 1 short_line
              (lit "000001.226604") (lit "00") (lit "0019") (lit "02048")
              (lit " 00 11 EE") Hrun eq_refl eq_refl eq_refl eq_refl eq_refl
              eq_refl ltac:(vm_compute; lia))
    as (df & Hmain & Hlab & HO & HT & HI & HR & HS & HD & Hnone).
  exists df. split; [exact Hmain|]. split; [exact Hlab|].
  repeat (split; [assumption|]).
  intros col Hcol. apply Hnone. unfold log_columns.
  repeat (apply elem_of_cons in Hcol as [->|Hcol]);
    [..|by apply elem_of_nil in Hcol];
    intros Hin; repeat (apply elem_of_cons in Hin as [Hin|Hin];
                        [discriminate Hin|]);
    by apply elem_of_nil in Hin.
Qed.

(** The same defect with a following line: the line that is dropped has
    a [Blk] field, the next line has none and completes row 0, which
    keeps the [Blk] of the dropped line. *)
Example stale_Blk_after_dropped_line :
  exists df,
    main_df [] [short_line; no_blk_line] = Ok df
    /\ df.*1 = [0%nat]
    /\ re_search_lit_class (lit "Blk = ") is_digit no_blk_line = None
    /\ df_get df 0 "Original" = Some (CStr (strip no_blk_line))
    /\ df_get df 0 "Blk" = Some (CStr (lit "1")).
Proof. apply Ok_match. vm_compute. repeat split. Qed.

(** C8 (as stated): a line with three payload bytes and no other field
    is not dropped silently; the search of line 66 fails first and the
    run stops with [AttributeError]. *)
Lemma C8_short_line_raises_counterexample :
  contains (lit "Data:") bare_short_line = true
  /\ re_search_lit_class (lit "Data: ") is_HEX_or_space bare_short_line
     = Some (lit " 00 11 EE")
  /\ length (re_findall_groups (lit " 00 11 EE")) = 3%nat
  /\ main_df [] [bare_short_line] = Raise AttributeError.
Proof. repeat split; vm_compute; reflexivity. Qed.

(** C8 (amended): on a line that holds the marker, on which the five
    searches succeed, and whose payload has fewer than 19 groups, the
    loop body neither decodes nor raises: it returns with the row index
    unchanged, having written log columns of row [i] only (no decoded
    column, no other row). *)
Theorem C8_short_payload_gate (pgn_df : list pgn_row) (df : DataFrame)
    (i : nat) (line g : str) :
  contains (lit "Data:") line = true ->
  ~ search_fails line ->
  re_search_lit_class (lit "Data: ") is_HEX_or_space line = Some g ->
  (length (re_findall_groups g) < 19)%nat ->
  exists df1,
    loop_body pgn_df (df, i) line = Ok (df1, i)
    /\ (forall j col, j <> i -> df_get df1 j col = df_get df j col)
    /\ (forall col, col ∉ log_columns -> df_get df1 i col = df_get df i col).
Proof.
  intros Hd Hnf Hg Hn.
  destruct (search_fails_dec line)
    as [Hf|(ts & id & ret & sz & g' & Hts & Hid & Hret & Hsz & Hg')];
    [contradiction|].
  rewrite Hg in Hg'. injection Hg' as <-.
  destruct (parse_log_entry_ok df i line _ _ _ _ _ Hts Hid Hret Hsz Hg)
    as (df1 & Hp & Hrows & Hcols & _).
  exists df1. split; [|split; assumption].
  eapply loop_body_short; eassumption.
Qed.

Lemma C8_short_payload_gate_witness :
  contains (lit "Data:") short_line = true
  /\ ~ search_fails short_line
  /\ re_search_lit_class (lit "Data: ") is_HEX_or_space short_line
     = Some (lit " 00 11 EE")
  /\ (length (re_findall_groups (lit " 00 11 EE")) < 19)%nat
  /\ exists df1,
       loop_body [] ([], 0%nat) short_line = Ok (df1, 0%nat)
       /\ (forall j col, j <> 0%nat -> df_get df1 j col = df_get [] j col)
       /\ (forall col, col ∉ log_columns ->
             df_get df1 0 col = df_get [] 0 col).
Proof.
  assert (Hd : contains (lit "Data:") short_line = true) by reflexivity.
  assert (Hnf : ~ search_fails short_line).
  { intros [H|[H|[H|[H|H]]]]; discriminate H. }
  assert (Hg : re_search_lit_class (lit "Data: ") is_HEX_or_space short_line
               = Some (lit " 00 11 EE")) by reflexivity.
  assert (Hn : (length (re_findall_groups (lit " 00 11 EE")) < 19)%nat)
    by (vm_compute; lia).
  repeat (split; [assumption|]).
  exact (C8_short_payload_gate [] [] 0 short_line _ Hd Hnf Hg Hn).
Defined.

(** ** Claims about the PGN annotator *)

Lemma pgn_label_row_nil (pgn_df : list pgn_row) (pgn_dec : Z) :
  (forall r, r ∈ pgn_df -> PGN r <> pgn_dec) ->
  pgn_label_row pgn_df pgn_dec = [].
Proof.
  intros H. unfold pgn_label_row.
  induction pgn_df as [|r rest IH]; [reflexivity|].
  rewrite filter_cons, decide_False by (apply H, list_elem_of_here).
  apply IH. intros r' Hr'. apply H, list_elem_of_further, Hr'.
Qed.

Lemma pgn_label_row_first (l1 l2 : list pgn_row) (r : pgn_row) (pgn_dec : Z) :
  (forall r', r' ∈ l1 -> PGN r' <> pgn_dec) ->
  PGN r = pgn_dec ->
  head (pgn_label_row (l1 ++ r :: l2) pgn_dec) = Some r.
Proof.
  intros H1 Hr. unfold pgn_label_row.
  rewrite filter_app. fold (pgn_label_row l1 pgn_dec).
  rewrite (pgn_label_row_nil l1 pgn_dec H1). simpl.
  rewrite filter_cons, decide_True by exact Hr. reflexivity.
Qed.

(** C9: the annotator cannot fail.  When no row of the table has the PGN,
    it writes nothing; when some rows have it, the label and the flag are
    those of the first such row of the table.  In a run of the loop, every
    finished row holds the annotation of its own PGN accordingly: no label
    and no flag when the table has no row for it, those of the first
    matching row otherwise. *)
Theorem C9_lookup_total_first_match (pgn_df : list pgn_row) :
  (forall df i pgn_dec,
     (forall r, r ∈ pgn_df -> PGN r <> pgn_dec) ->
     annotate pgn_df df i pgn_dec = df)
  /\ (forall df i pgn_dec l1 r l2,
        pgn_df = l1 ++ r :: l2 ->
        (forall r', r' ∈ l1 -> PGN r' <> pgn_dec) ->
        PGN r = pgn_dec ->
        df_get (annotate pgn_df df i pgn_dec) i "PgnLabel"
          = Some (PGN_label r)
        /\ df_get (annotate pgn_df df i pgn_dec) i "PgnInDbc"
           = Some (In_DBC r))
  /\ (forall lines df i j,
        run_loop pgn_df ([], 0%nat) lines = Ok (df, i) ->
        (j < i)%nat ->
        exists pgn_hex pgn_dec,
          df_get df j "PGN" = Some (CStr pgn_hex)
          /\ int pgn_hex 16 = Ok pgn_dec
          /\ ((forall r, r ∈ pgn_df -> PGN r <> pgn_dec) ->
              df_get df j "PgnLabel" = None
              /\ df_get df j "PgnInDbc" = None)
          /\ (forall l1 r l2,
                pgn_df = l1 ++ r :: l2 ->
                (forall r', r' ∈ l1 -> PGN r' <> pgn_dec) ->
                PGN r = pgn_dec ->
                df_get df j "PgnLabel" = Some (PGN_label r)
                /\ df_get df j "PgnInDbc" = Some (In_DBC r))).
Proof.
  split; [|split].
  - intros df i pgn_dec Hno. unfold annotate.
    rewrite pgn_label_row_nil by exact Hno. reflexivity.
  - intros df i pgn_dec l1 r l2 -> Hl1 Hr.
    rewrite annotate_label, annotate_flag.
    pose proof (pgn_label_row_first l1 l2 r pgn_dec Hl1 Hr) as Hhd.
    destruct (pgn_label_row (l1 ++ r :: l2) pgn_dec) as [|r0 rest];
      [discriminate Hhd|].
    injection Hhd as ->. split; reflexivity.
  - intros lines df i j Hrun Hj.
    pose proof (run_loop_inv pgn_df _ _ _ (loop_inv_init pgn_df) Hrun)
      as (_ & _ & Hann). cbn [fst snd] in Hann.
    destruct (Hann j Hj) as (gh & g & Hpgn & Hg & Hlabel & Hflag).
    exists gh, g. split; [exact Hpgn|]. split; [exact Hg|]. split.
    + intros Hno. rewrite Hlabel, Hflag, pgn_label_row_nil by exact Hno.
      split; reflexivity.
    + intros l1 r l2 -> Hl1 Hr.
      rewrite Hlabel, Hflag, (pgn_label_row_first l1 l2 r g Hl1 Hr).
      split; reflexivity.
Qed.

(** The example line against a table with two rows for its PGN, and
    against a table without any. *)
Example annotate_first_of_two :
  exists df,
    main_df two_labels [example_line] = Ok df
    /\ df_get df 0 "PGN" = Some (CStr (lit "00FF20"))
    /\ df_get df 0 "PgnLabel" = Some (CStr (lit "first"))
    /\ df_get df 0 "PgnInDbc" = Some (CStr (lit "Yes")).
Proof. apply Ok_match. vm_compute. repeat split. Qed.

Example annotate_no_match :
  exists df,
    main_df [mk_pgn_row 61444 (CStr (lit "EEC1")) (CStr (lit "Yes"))]
      [example_line] = Ok df
    /\ df_get df 0 "PgnLabel" = None
    /\ df_get df 0 "PgnInDbc" = None.
Proof. apply Ok_match. vm_compute. repeat split. Qed.

(** ** Searches and occurrences *)

Lemma prefixb_spec (p s : str) :
  prefixb p s = true <-> exists post, s = p ++ post.
Proof.
  revert s. induction p as [|a p IH]; intros s; simpl.
  - split; [intros _; exists s; reflexivity | reflexivity].
  - destruct s as [|b s].
    + split; [discriminate | intros [post H]; discriminate H].
    + rewrite andb_true_iff, IH. split.
      * intros [Hab [post ->]]. apply Ascii.eqb_eq in Hab as ->.
        exists post. reflexivity.
      * intros [post [= -> ->]]. split; [apply Ascii.eqb_refl | eauto].
Qed.

Lemma find_Some (pat s : str) (k : nat) :
  find pat s = Some k ->
  exists post, s = take k s ++ pat ++ post /\ (k <= length s)%nat.
Proof.
  revert k. induction s as [|c s IH]; intros k; cbn [find].
  - destruct (prefixb pat []) eqn:E; [|discriminate].
    intros [= <-]. apply prefixb_spec in E as [post E].
    exists post. split; [exact E | simpl; lia].
  - destruct (prefixb pat (c :: s)) eqn:E.
    + intros [= <-]. apply prefixb_spec in E as [post E].
      exists post. split; [exact E | simpl; lia].
    + destruct (find pat s) as [k'|]; [|discriminate].
      intros [= <-]. destruct (IH k' eq_refl) as (post & Hs & Hk).
      exists post. split; [simpl; f_equal; exact Hs | simpl; lia].
Qed.

Lemma find_unfold (pat s : str) :
  find pat s
  = if prefixb pat s then Some 0%nat
    else match s with
         | [] => None
         | _ :: r => S <$> find pat r
         end.
Proof. destruct s; reflexivity. Qed.

Lemma find_occurs (pat s : str) : is_Some (find pat s) <-> occurs pat s.
Proof.
  split.
  - intros [k Hk]. destruct (find_Some _ _ _ Hk) as (post & Hs & _).
    exists (take k s), post. exact Hs.
  - intros (pre & post & ->).
    induction pre as [|c pre IH]; rewrite find_unfold; cbn [app].
    + rewrite (proj2 (prefixb_spec pat (pat ++ post))) by eauto. eauto.
    + destruct (prefixb pat (c :: pre ++ pat ++ post)); [eauto|].
      destruct IH as [k ->]. simpl. eauto.
Qed.

Lemma contains_occurs (pat s : str) : contains pat s = true <-> occurs pat s.
Proof.
  rewrite <- find_occurs. unfold contains.
  destruct (find pat s); split; intros H; try reflexivity; try discriminate.
  - eauto.
  - destruct H as [k H]. discriminate H.
Qed.

Lemma re_search_lit_class_None (prefix : str) (cls : ascii -> bool)
    (line : str) :
  re_search_lit_class prefix cls line = None <-> ~ occurs prefix line.
Proof.
  rewrite <- find_occurs. unfold re_search_lit_class.
  destruct (find prefix line) as [k|]; simpl; split; intros H.
  - discriminate H.
  - exfalso. apply H. eauto.
  - intros [k Hk]. discriminate Hk.
  - reflexivity.
Qed.

Lemma greedy_dot_then_Some (pat s : str) (k : nat) :
  greedy_dot_then pat s = Some k ->
  exists post,
    s = take k s ++ pat ++ post
    /\ Forall (fun c => is_newline c = false) (take k s).
Proof.
  revert k. induction s as [|c s IH]; intros k; cbn [greedy_dot_then].
  - destruct (prefixb pat []) eqn:E; [|discriminate].
    intros [= <-]. apply prefixb_spec in E as [post E].
    exists post. split; [exact E | constructor].
  - assert (Hhere : (if prefixb pat (c :: s) then Some 0%nat else None)
                    = Some k ->
              exists post, c :: s = take k (c :: s) ++ pat ++ post
                /\ Forall (fun c => is_newline c = false) (take k (c :: s))).
    { destruct (prefixb pat (c :: s)) eqn:E; [|discriminate].
      intros [= <-]. apply prefixb_spec in E as [post E].
      exists post. split; [exact E | constructor]. }
    destruct (is_newline c) eqn:Hc; [exact Hhere|].
    destruct (greedy_dot_then pat s) as [k'|]; [|exact Hhere].
    intros [= <-]. destruct (IH k' eq_refl) as (post & Hs & Hnl).
    exists post. split; [simpl; f_equal; exact Hs|].
    simpl. constructor; assumption.
Qed.

Lemma greedy_dot_then_occurs (pat s : str) :
  is_Some (greedy_dot_then pat s) <-> occurs_on_first_line pat s.
Proof.
  split.
  - intros [k Hk]. destruct (greedy_dot_then_Some _ _ _ Hk) as (post & Hs & Hn).
    exists (take k s), post. split; assumption.
  - intros (pre & post & -> & Hnl).
    induction Hnl as [|c pre Hc _ IH].
    + assert (E : prefixb pat (pat ++ post) = true)
        by (apply prefixb_spec; eauto).
      simpl. destruct (pat ++ post) as [|c r]; cbn [greedy_dot_then];
        rewrite E; [eauto|].
      destruct (is_newline c); [eauto|].
      destruct (greedy_dot_then pat r); eauto.
    + cbn [app greedy_dot_then]. rewrite Hc.
      destruct IH as [k ->]. eauto.
Qed.

Lemma re_search_timestamp_None (line : str) :
  re_search_timestamp line = None
  <-> ~ occurs_on_first_line (lit " (") line.
Proof.
  rewrite <- greedy_dot_then_occurs. unfold re_search_timestamp.
  destruct (greedy_dot_then (lit " (") line) as [k|]; simpl; split; intros H.
  - discriminate H.
  - exfalso. apply H. eauto.
  - intros [k Hk]. discriminate Hk.
  - reflexivity.
Qed.

(** On a line of [readlines] the whole line is the first line. *)
Lemma text_line_first_line (pat line : str) :
  pat <> [] -> is_text_line line ->
  occurs_on_first_line pat line <-> occurs pat line.
Proof.
  intros Hpat Hline. split.
  - intros (pre & post & H & _). exists pre, post. exact H.
  - intros (pre & post & H). exists pre, post. split; [exact H|].
    apply Forall_forall. intros c Hc.
    destruct (is_newline c) eqn:E; [|reflexivity]. exfalso.
    apply list_elem_of_split in Hc as (p1 & p2 & ->).
    rewrite <- app_assoc in H. cbn [app] in H.
    specialize (Hline _ _ _ H E).
    apply app_eq_nil in Hline as [_ Hline].
    apply app_eq_nil in Hline as [Hline _]. contradiction.
Qed.

Lemma search_fails_occurs (line : str) :
  search_fails line
  <-> ~ occurs_on_first_line (lit " (") line
      \/ ~ occurs (lit "ID = ") line
      \/ ~ occurs (lit "Ret = ") line
      \/ ~ occurs (lit "Sz = ") line
      \/ ~ occurs (lit "Data: ") line.
Proof.
  unfold search_fails.
  rewrite re_search_timestamp_None, !re_search_lit_class_None. reflexivity.
Qed.

Lemma parse_log_entry_Raise_iff (df : DataFrame) (i : nat) (line : str) :
  is_Raise (parse_log_entry df i line) <-> search_fails line.
Proof.
  split.
  - intros [e He].
    destruct (search_fails_dec line)
      as [Hf|(ts & id & ret & sz & g & Hts & Hid & Hret & Hsz & Hg)];
      [exact Hf|].
    destruct (parse_log_entry_ok df i line _ _ _ _ _ Hts Hid Hret Hsz Hg)
      as (df' & Hp & _).
    rewrite Hp in He. discriminate He.
  - intros Hf. exists AttributeError. apply parse_log_entry_raise, Hf.
Qed.

Lemma take_while_nil (f : ascii -> bool) (s : str) :
  (forall c, s !! 0%nat = Some c -> f c = false) -> take_while f s = [].
Proof.
  destruct s as [|c s]; [reflexivity|]. intros H. simpl.
  rewrite (H c eq_refl). reflexivity.
Qed.

(** ** Claim about empty digit runs *)

(** C10 (as stated): a line that holds the marker, the blank and
    parenthesis of the timestamp and the three prefixes [ID = ], [Ret = ],
    [Sz = ], each followed by zero digits, and that is still not parsed:
    its marker is not followed by a blank, so the payload search of
    line 77 finds no match and [.group(1)] raises, after the three integer
    fields were matched with empty digit runs. *)
Lemma C10_marker_without_blank_counterexample :
  contains (lit "Data:") no_blank_line = true
  /\ occurs_on_first_line (lit " (") no_blank_line
  /\ occurs (lit "ID = ") no_blank_line
  /\ occurs (lit "Ret = ") no_blank_line
  /\ occurs (lit "Sz = ") no_blank_line
  /\ re_search_lit_class (lit "ID = ") is_digit no_blank_line = Some []
  /\ re_search_lit_class (lit "Ret = ") is_digit no_blank_line = Some []
  /\ re_search_lit_class (lit "Sz = ") is_digit no_blank_line = Some []
  /\ re_search_lit_class (lit "Data: ") is_HEX_or_space no_blank_line = None
  /\ parse_log_entry [] 0 no_blank_line = Raise AttributeError
  /\ main_df [] [no_blank_line] = Raise AttributeError.
Proof.
  split; [reflexivity|].
  split; [apply greedy_dot_then_occurs; vm_compute; eauto|].
  split; [apply contains_occurs; reflexivity|].
  split; [apply contains_occurs; reflexivity|].
  split; [apply contains_occurs; reflexivity|].
  repeat split; vm_compute; reflexivity.
Qed.

(** C10 (amended): parsing a line fails exactly when a literal of the
    five patterns is absent: the blank and parenthesis that end the
    timestamp (on a line of [readlines], anywhere in the line), one of the
    prefixes [ID = ], [Ret = ], [Sz = ], or [Data: ], the marker followed
    by a blank, which is the literal of the payload pattern of line 77.
    When parsing succeeds, the cell of each integer field is the run of
    digits that follows the first occurrence of its prefix, and it is the
    empty string when no digit follows. *)
Theorem C10_empty_digit_runs_match (df : DataFrame) (i : nat) (line : str) :
  (is_Raise (parse_log_entry df i line)
   <-> ~ occurs_on_first_line (lit " (") line
       \/ ~ occurs (lit "ID = ") line
       \/ ~ occurs (lit "Ret = ") line
       \/ ~ occurs (lit "Sz = ") line
       \/ ~ occurs (lit "Data: ") line)
  /\ (is_text_line line ->
      (occurs_on_first_line (lit " (") line <-> occurs (lit " (") line))
  /\ (forall col prefix df' h n,
        (col, prefix) ∈ [("LogID", lit "ID = "); ("Ret", lit "Ret = ");
                         ("Sz", lit "Sz = ")]%string ->
        parse_log_entry df i line = Ok (df', h, n) ->
        exists k,
          find prefix line = Some k
          /\ df_get df' i col
             = Some (CStr (take_while is_digit
                             (drop (k + length prefix) line)))
          /\ ((forall c, line !! (k + length prefix)%nat = Some c ->
                         is_digit c = false) ->
              df_get df' i col = Some (CStr []))).
Proof.
  split; [|split].
  - rewrite parse_log_entry_Raise_iff. apply search_fails_occurs.
  - intros Hline. apply text_line_first_line; [discriminate | exact Hline].
  - intros col prefix df' h n Hin Hp.
    destruct (search_fails_dec line)
      as [Hf|(ts & id & ret & sz & g & Hts & Hid & Hret & Hsz & Hg)].
    { rewrite parse_log_entry_raise in Hp by exact Hf. discriminate Hp. }
    destruct (parse_log_entry_ok df i line _ _ _ _ _ Hts Hid Hret Hsz Hg)
      as (df1 & Hp1 & _ & _ & _ & _ & HI & HR & HS & _).
    rewrite Hp in Hp1. injection Hp1 as <- _ _.
    assert (Hcell : exists v,
               re_search_lit_class prefix is_digit line = Some v
               /\ df_get df' i col = Some (CStr v)).
    { repeat (apply elem_of_cons in Hin as [[= -> ->]|Hin]);
        [eauto .. | by apply elem_of_nil in Hin]. }
    destruct Hcell as (v & Hv & Hc). unfold re_search_lit_class in Hv.
    destruct (find prefix line) as [k|]; [|discriminate Hv].
    injection Hv as <-. exists k. split; [reflexivity|].
    split; [exact Hc|].
    intros Hnd. rewrite Hc, take_while_nil; [reflexivity|].
    intros c. rewrite lookup_drop, Nat.add_0_r. apply Hnd.
Qed.

(** A line whose three integer fields have no digit is parsed, with three
    empty strings. *)
Example no_digit_line_parsed :
  exists r,
    parse_log_entry [] 0 no_digit_line = Ok r
    /\ df_get r.1.1 0 "LogID" = Some (CStr [])
    /\ df_get r.1.1 0 "Ret" = Some (CStr [])
    /\ df_get r.1.1 0 "Sz" = Some (CStr [])
    /\ r.1.2 = lit "0011EE" /\ r.2 = 3%nat.
Proof. apply Ok_match. vm_compute. repeat split. Qed.

Example eol_is_newline : Forall (fun c => is_newline c = true) eol.
Proof. repeat constructor. Qed.

(** * Further properties of the auxiliary functions (lines 244-257) *)

(** ** [hexStr2binStr] and [binStr2HexStr] *)

Lemma bits_pos_bits (p : positive) :
  Forall (fun c => is_bit c = true) (bits_pos p).
Proof.
  induction p as [q IH|q IH|]; simpl;
    [apply Forall_app; split; [exact IH|] |
     apply Forall_app; split; [exact IH|] |];
    repeat constructor.
Qed.

Lemma bits_bits (n : Z) :
  (0 <= n)%Z -> Forall (fun c => is_bit c = true) (bits n).
Proof.
  destruct n as [|p|p]; intros Hn; [repeat constructor | | lia].
  apply bits_pos_bits.
Qed.

Lemma width_pos (n : Z) : (1 <= width n)%nat.
Proof. destruct n as [|p|p]; simpl; try lia. destruct p; simpl; lia. Qed.

(** X1: the result of [hexStr2binStr] is a run of binary digits that reads
    back as the value of [hexStr]; it has [numBits] digits, or as many as
    the value needs when that is more: the field is never cut, and it has
    exactly [numBits] digits only for a value below [2^numBits]. *)
Theorem hexStr2binStr_shape (hexStr : str) (numBits : nat) (n : Z) :
  int hexStr 16 = Ok n ->
  exists b,
    hexStr2binStr hexStr numBits = Ok b
    /\ Forall (fun c => is_bit c = true) b
    /\ length b = (numBits `max` width n)%nat
    /\ int b 2 = Ok n
    /\ ((1 <= numBits)%nat ->
        (length b = numBits <-> (n < 2 ^ Z.of_nat numBits)%Z)).
Proof.
  intros Hn. pose proof (int_nonneg _ _ Hn) as Hpos.
  destruct (hexStr2binStr_spec hexStr numBits n Hn) as (b & Hb & Lb & Vb).
  exists b. split; [exact Hb|].
  assert (Hbits : Forall (fun c => is_bit c = true) b).
  { unfold hexStr2binStr in Hb. rewrite Hn, bind_Ok_l in Hb.
    injection Hb as <-. fold (bits n). rewrite zfill_bits by exact Hpos.
    apply Forall_app. split; [|apply bits_bits, Hpos].
    apply Forall_replicate. reflexivity. }
  split; [exact Hbits|]. split; [exact Lb|]. split.
  - rewrite int_nonempty; [exact Vb|].
    intros E. rewrite E in Lb. pose proof (width_pos n). simpl in Lb. lia.
  - intros Hk. rewrite Lb. split.
    + intros Hmax. eapply Z.lt_le_trans; [apply width_bound, Hpos|].
      apply Z.pow_le_mono_r; lia.
    + intros Hlt. pose proof (width_small n numBits ltac:(lia) Hk). lia.
Qed.

Lemma hexStr2binStr_shape_witness :
  int (lit "0F") 16 = Ok 15%Z
  /\ exists b,
       hexStr2binStr (lit "0F") 3 = Ok b
       /\ Forall (fun c => is_bit c = true) b
       /\ length b = (3 `max` width 15)%nat
       /\ int b 2 = Ok 15%Z
       /\ ((1 <= 3)%nat -> (length b = 3%nat <-> (15 < 2 ^ Z.of_nat 3)%Z)).
Proof.
  split; [reflexivity|].
  apply (hexStr2binStr_shape (lit "0F") 3 15). reflexivity.
Defined.

(** X2: from hexadecimal to binary and back: whatever [numBits], the string
    that [binStr2HexStr] gives for the result of [hexStr2binStr] has the
    value of the first string. *)
Theorem hex_bin_hex_value (hexStr : str) (numBits : nat) (n : Z) :
  int hexStr 16 = Ok n ->
  exists b h,
    hexStr2binStr hexStr numBits = Ok b
    /\ binStr2HexStr b = Ok h
    /\ int h 16 = Ok n.
Proof.
  intros Hn.
  destruct (hexStr2binStr_spec hexStr numBits n Hn) as (b & Hb & Lb & Vb).
  exists b, (format_0gt4X n). split; [exact Hb|]. split.
  - unfold binStr2HexStr. rewrite int_nonempty, Vb; [reflexivity|].
    intros E. rewrite E in Lb. pose proof (width_pos n). simpl in Lb. lia.
  - apply format_0gt4X_value. eapply int_nonneg, Hn.
Qed.

Lemma hex_bin_hex_value_witness :
  int (lit "00ff20") 16 = Ok 65312%Z
  /\ exists b h,
       hexStr2binStr (lit "00ff20") 18 = Ok b
       /\ binStr2HexStr b = Ok h
       /\ int h 16 = Ok 65312%Z.
Proof.
  split; [reflexivity|].
  apply (hex_bin_hex_value (lit "00ff20") 18 65312). reflexivity.
Defined.

Lemma is_bit_cases (c : ascii) : is_bit c = true -> c = "0" \/ c = "1".
Proof.
  unfold is_bit. intros [H|H]%orb_true_iff; apply Ascii.eqb_eq in H; auto.
Qed.

Lemma replicate_snoc {A} (n : nat) (x : A) :
  replicate n x ++ [x] = replicate (S n) x.
Proof. induction n as [|n IH]; simpl; [reflexivity | f_equal; exact IH]. Qed.

(** A binary string is its value written by [bin], padded with zeros to
    its own length. *)
Lemma bits_canonical (b : str) (v : Z) :
  Forall (fun c => is_bit c = true) b -> b <> [] ->
  int_digits 2 0 b = Ok v ->
  replicate (length b - width v) "0" ++ bits v = b.
Proof.
  revert v. induction b as [|c b' IH] using rev_ind; intros v Hb Hne Hv;
    [congruence|].
  apply Forall_app in Hb as [Hb' Hc]. apply Forall_inv in Hc.
  rewrite int_digits_app in Hv. apply bind_Ok in Hv as (v' & Hv' & Hv).
  assert (Hd : exists d, (d = 0 \/ d = 1)%Z /\ v = (v' * 2 + d)%Z
                 /\ bits d = [c]).
  { destruct (is_bit_cases c Hc) as [-> | ->]; simpl in Hv;
      injection Hv as <-; [exists 0%Z | exists 1%Z]; auto. }
  destruct Hd as (d & Hd & -> & Hbd).
  rewrite length_app. cbn [length].
  destruct b' as [|c0 b0].
  { simpl in Hv'. injection Hv' as <-.
    destruct Hd as [-> | ->]; simpl in Hbd |- *; exact Hbd. }
  specialize (IH v' Hb' ltac:(discriminate) Hv').
  pose proof (int_digits_nonneg 2 _ 0 v' ltac:(lia) ltac:(lia) Hv') as Hv0.
  destruct v' as [|p|p]; [| |lia].
  - change (width 0) with 1%nat in IH. change (bits 0) with ["0"] in IH.
    rewrite replicate_snoc in IH.
    replace (0 * 2 + d)%Z with d by lia.
    assert (Hw : width d = 1%nat) by (destruct Hd as [-> | ->]; reflexivity).
    rewrite Hw, Hbd. f_equal.
    rewrite <- IH at 2. f_equal. simpl. lia.
  - assert (Hbits : bits (Z.pos p * 2 + d) = bits (Z.pos p) ++ [c]
                    /\ width (Z.pos p * 2 + d) = S (width (Z.pos p))).
    { destruct Hd as [-> | ->].
      - replace (Z.pos p * 2 + 0)%Z with (Z.pos p~0) by lia.
        change (bits 0) with ["0"] in Hbd. injection Hbd as <-.
        split; reflexivity.
      - replace (Z.pos p * 2 + 1)%Z with (Z.pos p~1) by lia.
        change (bits 1) with ["1"] in Hbd. injection Hbd as <-.
        split; reflexivity. }
    destruct Hbits as [-> ->].
    rewrite app_assoc. f_equal. rewrite <- IH at 2. f_equal. f_equal.
    simpl. lia.
Qed.

Lemma int_digits_bits (b : str) :
  Forall (fun c => is_bit c = true) b ->
  exists v, int_digits 2 0 b = Ok v /\ (0 <= v)%Z.
Proof.
  induction b as [|c b IH] using rev_ind; intros Hb.
  - exists 0%Z. split; [reflexivity | lia].
  - apply Forall_app in Hb as [Hb Hc]. apply Forall_inv in Hc.
    destruct (IH Hb) as (v & Hv & Hv0).
    rewrite int_digits_app, Hv, bind_Ok_l.
    destruct (is_bit_cases c Hc) as [-> | ->];
      [exists (v * 2 + 0)%Z | exists (v * 2 + 1)%Z];
      (split; [reflexivity | lia]).
Qed.

(** X3: from binary to hexadecimal and back: for a non-empty run of binary
    digits, [hexStr2binStr] of the result of [binStr2HexStr], padded to
    the length of the run, is the run itself. *)
Theorem bin_hex_bin_roundtrip (binStr : str) :
  binStr <> [] ->
  Forall (fun c => is_bit c = true) binStr ->
  exists h,
    binStr2HexStr binStr = Ok h
    /\ hexStr2binStr h (length binStr) = Ok binStr.
Proof.
  intros Hne Hb. destruct (int_digits_bits binStr Hb) as (v & Hv & Hv0).
  exists (format_0gt4X v). split.
  - unfold binStr2HexStr. rewrite int_nonempty, Hv by exact Hne. reflexivity.
  - unfold hexStr2binStr. rewrite format_0gt4X_value, bind_Ok_l by exact Hv0.
    f_equal. fold (bits v). rewrite zfill_bits by exact Hv0.
    apply bits_canonical; assumption.
Qed.

Lemma bin_hex_bin_roundtrip_witness :
  lit "01100111111110010000000000000" <> []
  /\ Forall (fun c => is_bit c = true) (lit "01100111111110010000000000000")
  /\ exists h,
       binStr2HexStr (lit "01100111111110010000000000000") = Ok h
       /\ hexStr2binStr h (length (lit "01100111111110010000000000000"))
          = Ok (lit "01100111111110010000000000000").
Proof.
  assert (Hne : lit "01100111111110010000000000000" <> []) by discriminate.
  assert (Hb : Forall (fun c => is_bit c = true)
                 (lit "01100111111110010000000000000"))
    by repeat constructor.
  split; [exact Hne|]. split; [exact Hb|].
  exact (bin_hex_bin_roundtrip _ Hne Hb).
Defined.

Lemma is_HEX_hex_digit (d : Z) :
  (0 <= d < 16)%Z -> is_HEX (hex_digit d) = true.
Proof.
  intros Hd.
  assert (Hcases : Exists (fun k => d = k)
            [0;1;2;3;4;5;6;7;8;9;10;11;12;13;14;15]%Z).
  { rewrite !Exists_cons. lia. }
  rewrite !Exists_cons, Exists_nil in Hcases.
  repeat destruct Hcases as [->|Hcases]; try reflexivity; contradiction.
Qed.

Lemma hex_digits_HEX (fuel : nat) (n : Z) :
  (0 <= n)%Z -> Forall (fun c => is_HEX c = true) (hex_digits fuel n).
Proof.
  revert n. induction fuel as [|f IH]; intros n Hn; cbn [hex_digits];
    [constructor|].
  destruct (Z.ltb_spec n 16) as [Hlt|Hge].
  - constructor; [apply is_HEX_hex_digit; lia | constructor].
  - apply Forall_app. split.
    + apply IH, Z.div_pos; lia.
    + constructor; [|constructor]. apply is_HEX_hex_digit.
      apply Z.mod_pos_bound. lia.
Qed.

Lemma hex_digits_length (fuel k : nat) (n : Z) :
  (0 <= n < 16 ^ Z.of_nat k)%Z -> (1 <= k)%nat ->
  (length (hex_digits fuel n) <= k)%nat.
Proof.
  revert n k. induction fuel as [|f IH]; intros n k Hn Hk; cbn [hex_digits];
    [simpl; lia|].
  destruct (Z.ltb_spec n 16) as [Hlt|Hge]; [simpl; lia|].
  rewrite length_app. cbn [length].
  destruct k as [|k]; [lia|].
  rewrite Nat2Z.inj_succ, Z.pow_succ_r in Hn by lia.
  destruct k as [|k]; [simpl in Hn; lia|].
  specialize (IH (n / 16)%Z (S k)).
  assert (length (hex_digits f (n / 16)) <= S k)%nat; [|lia].
  apply IH; [|lia]. split; [apply Z.div_pos; lia|].
  apply Z.div_lt_upper_bound; lia.
Qed.

(** X4: the result of [binStr2HexStr] is made of digits of [[0-9A-F]] and
    reads back as the value of [binStr]; it has four digits, or as many as
    the value needs when that is more. *)
Theorem binStr2HexStr_shape (binStr : str) (n : Z) :
  int binStr 2 = Ok n ->
  exists h,
    binStr2HexStr binStr = Ok h
    /\ Forall (fun c => is_HEX c = true) h
    /\ int h 16 = Ok n
    /\ (4 <= length h)%nat
    /\ (forall k, (4 <= k)%nat ->
          (length h <= k)%nat <-> (n < 16 ^ Z.of_nat k)%Z).
Proof.
  intros Hn.
  assert (Hn0 : (0 <= n)%Z).
  { destruct binStr as [|c r]; [discriminate|].
    unfold int in Hn. eapply int_digits_nonneg; [| |exact Hn]; lia. }
  exists (format_0gt4X n).
  assert (HX : Forall (fun c => is_HEX c = true) (format_0gt4X n)).
  { unfold format_0gt4X, format_X.
    destruct (Z.ltb_spec n 0) as [|_]; [lia|].
    apply Forall_app. split; [|apply hex_digits_HEX, Hn0].
    apply Forall_replicate. reflexivity. }
  pose proof (format_0gt4X_value n Hn0) as Hv.
  split; [unfold binStr2HexStr; rewrite Hn; reflexivity|].
  split; [exact HX|]. split; [exact Hv|].
  assert (Hlen : length (format_0gt4X n)
                 = (4 `max` length (format_X n))%nat).
  { unfold format_0gt4X. rewrite length_app, length_replicate. lia. }
  split; [lia|].
  intros k Hk. split.
  - intros Hle.
    destruct (int_hex _ HX) as (v & Hv' & Bv).
    { intros E. rewrite E in Hlen. simpl in Hlen. lia. }
    rewrite Hv in Hv'. injection Hv' as <-.
    eapply Z.lt_le_trans; [apply Bv|]. apply Z.pow_le_mono_r; lia.
  - intros Hlt. rewrite Hlen.
    assert (length (format_X n) <= k)%nat; [|lia].
    unfold format_X. destruct (Z.ltb_spec n 0) as [|_]; [lia|].
    apply hex_digits_length; lia.
Qed.

Lemma binStr2HexStr_shape_witness :
  int (lit "1111000000000000000000000000000") 2 = Ok 2013265920%Z
  /\ exists h,
       binStr2HexStr (lit "1111000000000000000000000000000") = Ok h
       /\ Forall (fun c => is_HEX c = true) h
       /\ int h 16 = Ok 2013265920%Z
       /\ (4 <= length h)%nat
       /\ (forall k, (4 <= k)%nat ->
             (length h <= k)%nat <-> (2013265920 < 16 ^ Z.of_nat k)%Z).
Proof.
  split; [reflexivity|].
  apply (binStr2HexStr_shape (lit "1111000000000000000000000000000")).
  reflexivity.
Defined.

(** ** [HexStrToListOfInts] *)

Lemma HexStrToListOfInts_range (hexStr : str) :
  Forall (fun c => is_HEX c = true) hexStr ->
  exists l,
    HexStrToListOfInts hexStr = Ok l
    /\ length l = Nat.div2 (S (length hexStr))
    /\ Forall (fun b => (0 <= b < 256)%Z) l.
Proof.
  intros Hs. destruct (HexStrToListOfInts_hex hexStr Hs) as (l & Hl & Ll).
  exists l. split; [exact Hl|]. split; [exact Ll|].
  apply Forall_lookup. intros k b Hk.
  assert (Hlt : (2 * k < length hexStr)%nat).
  { apply div2_S_lt. rewrite <- Ll. eapply lookup_lt_Some, Hk. }
  apply (HexStrToListOfInts_lookup _ _ _ _ Hl Hlt) in Hk.
  destruct (int_hex (slice hexStr (2 * k) (2 * k + 2))) as (v & Hv & Bv).
  - apply slice_hex, Hs.
  - intros E. apply (f_equal length) in E. unfold slice in E.
    rewrite length_take, length_drop in E. simpl in E. lia.
  - rewrite Hk in Hv. injection Hv as <-.
    assert (Hle : (length (slice hexStr (2 * k) (2 * k + 2)) <= 2)%nat).
    { unfold slice. rewrite length_take. lia. }
    split; [lia|]. eapply Z.lt_le_trans; [apply Bv|].
    change 256%Z with (16 ^ Z.of_nat 2)%Z. apply Z.pow_le_mono_r; lia.
Qed.

(** X5: on hexadecimal digits [HexStrToListOfInts] gives one integer for each
    pair of digits (and one for a last single digit), each of them a byte
    value. *)
Theorem HexStrToListOfInts_bytes (hexStr : str) :
  Forall (fun c => is_HEX c = true) hexStr ->
  exists l,
    HexStrToListOfInts hexStr = Ok l
    /\ length l = Nat.div2 (S (length hexStr))
    /\ Forall (fun b => (0 <= b < 256)%Z) l.
Proof.
  intros Hs. destruct (HexStrToListOfInts_range hexStr Hs) as (l & Hl & H).
  exists l. split; [exact Hl | exact H].
Qed.

Lemma HexStrToListOfInts_bytes_witness :
  Forall (fun c => is_HEX c = true) (lit "A123EEF")
  /\ exists l,
       HexStrToListOfInts (lit "A123EEF") = Ok l
       /\ length l = Nat.div2 (S (length (lit "A123EEF")))
       /\ Forall (fun b => (0 <= b < 256)%Z) l.
Proof.
  assert (H : Forall (fun c => is_HEX c = true) (lit "A123EEF"))
    by repeat constructor.
  split; [exact H|]. exact (HexStrToListOfInts_bytes _ H).
Defined.

Lemma slice_cons2 (c0 c1 : ascii) (s : str) (a b : nat) :
  slice (c0 :: c1 :: s) (S (S a)) (S (S b)) = slice s a b.
Proof. reflexivity. Qed.

Lemma range2_SS (n : nat) :
  range2 (S (S n)) = 0%nat :: ((fun i => S (S i)) <$> range2 n).
Proof.
  unfold range2. change (Nat.div2 (S (S (S n)))) with (S (Nat.div2 (S n))).
  cbn [seq fmap list_fmap]. f_equal.
  rewrite <- fmap_S_seq, <- !list_fmap_compose.
  apply list_fmap_ext. intros _ k _. simpl. lia.
Qed.

(** The first pair of digits gives the first integer. *)
Lemma HexStrToListOfInts_cons2 (c0 c1 : ascii) (s : str) :
  HexStrToListOfInts (c0 :: c1 :: s)
  = int [c0; c1] 16 ≫= fun v =>
    HexStrToListOfInts s ≫= fun t => Ok (v :: t).
Proof.
  unfold HexStrToListOfInts. cbn [length]. rewrite range2_SS.
  rewrite !fmap_cons. cbn [sequenceR]. f_equal.
  rewrite <- !list_fmap_compose.
  erewrite list_fmap_ext; [reflexivity|].
  intros _ i _. simpl. rewrite slice_cons2. reflexivity.
Qed.

(** X6: [HexStrToListOfInts] of a concatenation, when the first part has an
    even number of characters: the integers of the first part, then those
    of the second; a conversion error of the first part comes first. *)
Theorem HexStrToListOfInts_app (s1 s2 : str) :
  Nat.even (length s1) = true ->
  HexStrToListOfInts (s1 ++ s2)
  = HexStrToListOfInts s1 ≫= fun l1 =>
    HexStrToListOfInts s2 ≫= fun l2 => Ok (l1 ++ l2).
Proof.
  remember (length s1) as n eqn:Hn. revert s1 Hn.
  induction n as [n IH] using lt_wf_ind. intros s1 Hn Heven.
  destruct s1 as [|c0 [|c1 s1]].
  - change (HexStrToListOfInts []) with (Ok ([] : list Z)).
    rewrite bind_Ok_l. cbn [app].
    destruct (HexStrToListOfInts s2); reflexivity.
  - subst n. discriminate Heven.
  - cbn [app]. rewrite !HexStrToListOfInts_cons2.
    rewrite (IH (length s1) ltac:(subst n; simpl; lia) s1 eq_refl)
      by (subst n; exact Heven).
    destruct (int [c0; c1] 16) as [v|e]; [|reflexivity].
    rewrite !bind_Ok_l.
    destruct (HexStrToListOfInts s1) as [l1|e]; [|reflexivity].
    rewrite !bind_Ok_l.
    destruct (HexStrToListOfInts s2) as [l2|e]; reflexivity.
Qed.

Lemma HexStrToListOfInts_app_witness :
  Nat.even (length (lit "0011EEB0")) = true
  /\ HexStrToListOfInts (lit "0011EEB0" ++ lit "20FF00")
     = HexStrToListOfInts (lit "0011EEB0") ≫= fun l1 =>
       HexStrToListOfInts (lit "20FF00") ≫= fun l2 => Ok (l1 ++ l2).
Proof.
  split; [reflexivity|].
  apply (HexStrToListOfInts_app (lit "0011EEB0") (lit "20FF00")).
  reflexivity.
Defined.

(** * Further properties of the loop of [main] (lines 45-144) *)

Section LoopExtras.

Variable pgn_df : list pgn_row.

(** ** Lines without the marker *)

(** X7: a run reads the lines that hold the marker and no other: removing the
    other lines from the input changes neither the exported frame nor the
    exception. *)
Theorem main_df_ignores_unmarked (lines : list str) :
  main_df pgn_df lines
  = main_df pgn_df (filter (fun l => has_marker l = true) lines).
Proof.
  unfold main_df. f_equal. generalize (([], 0%nat) : DataFrame * nat).
  induction lines as [|line lines IH]; intros st; [reflexivity|].
  rewrite filter_cons. destruct (has_marker line) eqn:Hm.
  - rewrite decide_True by reflexivity. cbn [run_loop].
    destruct (loop_body pgn_df st line) as [st'|e]; [|reflexivity].
    rewrite !bind_Ok_l. apply IH.
  - rewrite decide_False by discriminate. cbn [run_loop].
    destruct st as [df i]. rewrite loop_body_skip by exact Hm.
    rewrite bind_Ok_l. apply IH.
Qed.

(** ** When a run completes *)

Lemma loop_body_Ok_iff (st : DataFrame * nat) (line : str) :
  (exists st', loop_body pgn_df st line = Ok st')
  <-> (has_marker line = true -> ~ search_fails line).
Proof.
  destruct st as [df i]. unfold has_marker.
  destruct (loop_body_cases pgn_df df i line)
    as [[Hm H]|[(Hm & Hf & H)|[(g & df1 & Hm & Hg & Hp & _ & H)
       |(g & df1 & df2 & Hm & Hg & Hp & _ & _ & _ & H)]]];
    rewrite H; split.
  - intros _ Hm'. congruence.
  - eauto.
  - intros [st' E]. discriminate E.
  - intros Hno. destruct (Hno Hm Hf).
  - intros _ _ Hf. rewrite parse_log_entry_raise in Hp by exact Hf.
    discriminate Hp.
  - eauto.
  - intros _ _ Hf. rewrite parse_log_entry_raise in Hp by exact Hf.
    discriminate Hp.
  - eauto.
Qed.

(** X8: a run completes exactly when, on every line that holds the marker,
    the five searches find a match; a run that does not complete raises
    [AttributeError], and nothing else. *)
Theorem main_df_completes_iff (lines : list str) :
  ((exists df, main_df pgn_df lines = Ok df)
   <-> Forall (fun l => has_marker l = true -> ~ search_fails l) lines)
  /\ (forall e, main_df pgn_df lines = Raise e -> e = AttributeError).
Proof.
  split.
  - unfold main_df.
    assert (H : forall st,
      (exists st', run_loop pgn_df st lines = Ok st')
      <-> Forall (fun l => has_marker l = true -> ~ search_fails l) lines).
    { induction lines as [|line lines IH]; intros st; cbn [run_loop].
      - split; [constructor | eauto].
      - rewrite Forall_cons, <- (loop_body_Ok_iff st line). split.
        + intros [st' (st1 & H1 & H2)%bind_Ok]. split; [eauto|].
          apply (IH st1). eauto.
        + intros [[st1 H1] H2]. rewrite H1, bind_Ok_l. apply IH, H2. }
    rewrite <- (H ([], 0%nat)). split.
    + intros [df (st & Hs & _)%bind_Ok]. eauto.
    + intros [st Hs]. rewrite Hs. eauto.
  - unfold main_df. intros e He.
    destruct (run_loop pgn_df ([], 0%nat) lines) as [st|e'] eqn:Hr;
      [discriminate He|].
    injection He as <-. eapply run_loop_exn, Hr.
Qed.

End LoopExtras.

(** ** What one iteration does to the frame *)

#[local] Ltac in_list :=
  repeat first [apply list_elem_of_here | apply list_elem_of_further].

Lemma parse_can_frame_timestamp (pgn_df : list pgn_row) (df df' : DataFrame)
    (i : nat) (h : str) :
  parse_can_frame pgn_df df i h = Ok df' ->
  exists b t,
    bytes_fromhex (slice h 0 8) = Ok b
    /\ struct_unpack_f b = Ok t
    /\ df_get df' i "timestamps" = Some (CFloat32 t).
Proof.
  unfold parse_can_frame. intros H. bind_inv. injection H as <-.
  eexists _, _. split; [eassumption|]. split; [eassumption|].
  rewrite annotate_other by (right; split; discriminate).
  df_get_simpl. reflexivity.
Qed.

Lemma not_log_column (col : string) :
  col ∈ ["timestamps"; "echoByte"; "PGN"; "Priority"; "Source";
         "Destination"; "DataBytes"; "DataLength"; "ID"; "BusChannel";
         "IDE"; "DLC"; "Dir"; "EDL"; "BRS"; "PgnLabel"; "PgnInDbc"]%string ->
  col ∉ log_columns.
Proof.
  intros Hcol. unfold log_columns.
  repeat (apply elem_of_cons in Hcol as [->|Hcol]);
    [..|by apply elem_of_nil in Hcol];
    intros Hin; repeat (apply elem_of_cons in Hin as [Hin|Hin];
                        [discriminate Hin|]);
    by apply elem_of_nil in Hin.
Qed.

Section LoopSteps.

Variable pgn_df : list pgn_row.

(** An iteration writes into row [i] only, and moves [i] by one at most;
    it moves [i] exactly on the lines that pass the gate. *)
Lemma loop_body_step (df df' : DataFrame) (i i' : nat) (line : str) :
  loop_body pgn_df (df, i) line = Ok (df', i') ->
  (forall j col, j <> i -> df_get df' j col = df_get df j col)
  /\ i' = (if passes line then S i else i)
  /\ (passes line = false ->
      forall col, col ∉ log_columns -> df_get df' i col = df_get df i col)
  /\ df'.*1 = (if has_marker line then labels_with df.*1 i else df.*1).
Proof.
  intros Hb. unfold passes, has_marker.
  destruct (loop_body_cases pgn_df df i line)
    as [[Hm H]|[(Hm & Hf & H)|[(g & df1 & Hm & Hg & Hp & Hn & H)
       |(g & df1 & df2 & Hm & Hg & Hp & Hn & Hacc & Hf & H)]]];
    rewrite H in Hb; [| discriminate | |]; injection Hb as <- <-;
    rewrite Hm; cbn [andb].
  - repeat split; reflexivity.
  - destruct (search_fails_dec line)
      as [Hfail|(ts & id & ret & sz & g' & Hts & Hid & Hret & Hsz & Hg')].
    { rewrite parse_log_entry_raise in Hp by exact Hfail. discriminate. }
    destruct (parse_log_entry_ok df i line _ _ _ _ _ Hts Hid Hret Hsz Hg')
      as (df1' & Hp' & Hrows & Hcols & _).
    rewrite Hp in Hp'. injection Hp' as <- _ _.
    rewrite Hg, (proj2 (Nat.leb_gt 19 _) Hn).
    split; [exact Hrows|]. split; [reflexivity|].
    split; [intros _; exact Hcols|].
    eapply parse_log_entry_labels, Hp.
  - destruct (search_fails_dec line)
      as [Hfail|(ts & id & ret & sz & g' & Hts & Hid & Hret & Hsz & Hg')].
    { rewrite parse_log_entry_raise in Hp by exact Hfail. discriminate. }
    destruct (parse_log_entry_ok df i line _ _ _ _ _ Hts Hid Hret Hsz Hg')
      as (df1' & Hp' & Hrows & _).
    rewrite Hp in Hp'. injection Hp' as <- _ _.
    destruct (parse_can_frame_spec pgn_df df1 i _ Hacc)
      as (df2' & _ & _ & _ & Hf' & _ & _ & Hrows2 & _).
    rewrite Hf in Hf'. injection Hf' as <-.
    rewrite Hg, (proj2 (Nat.leb_le 19 _) Hn).
    split; [intros j col Hj; rewrite Hrows2, Hrows by exact Hj; reflexivity|].
    split; [reflexivity|]. split; [discriminate|].
    rewrite (parse_can_frame_labels _ _ _ _ _ Hf),
      (parse_log_entry_labels _ _ _ _ _ _ Hp).
    apply labels_with_idemp.
Qed.

(** On a line that passes the gate, from a state whose row [i] holds log
    columns only, row [i] is decoded from the line. *)
Lemma loop_body_decoded (df df' : DataFrame) (i i' : nat) (line : str) :
  (forall col, col ∉ log_columns -> df_get df i col = None) ->
  passes line = true ->
  loop_body pgn_df (df, i) line = Ok (df', i') ->
  decoded_from pgn_df line (df_get df' i).
Proof.
  intros Hclean Hpass Hb. unfold passes, has_marker in Hpass.
  destruct (loop_body_cases pgn_df df i line)
    as [[Hm H]|[(Hm & Hf & H)|[(g & df1 & Hm & Hg & Hp & Hn & H)
       |(g & df1 & df2 & Hm & Hg & Hp & Hn & Hacc & Hf & H)]]];
    rewrite H in Hb; [| discriminate | |]; injection Hb as <- <-.
  - rewrite Hm in Hpass. discriminate Hpass.
  - rewrite Hm, Hg, (proj2 (Nat.leb_gt 19 _) Hn) in Hpass.
    discriminate Hpass.
  - destruct (search_fails_dec line)
      as [Hfail|(ts & id & ret & sz & g' & Hts & Hid & Hret & Hsz & Hg')].
    { rewrite parse_log_entry_raise in Hp by exact Hfail. discriminate. }
    pose proof Hg' as Hgg. rewrite Hg in Hgg. injection Hgg as <-.
    destruct (parse_log_entry_ok df i line _ _ _ _ _ Hts Hid Hret Hsz Hg)
      as (df1' & Hp' & _ & Hcols & HO & HT & HI & HR & HS & HB & HD).
    rewrite Hp in Hp'. injection Hp' as <-.
    destruct (parse_can_frame_spec pgn_df df1 i _ Hacc)
      as (df2' & _ & ID & pg & Hf' & HID & Hpg & _ & Hlog & _ & Hecho & Hpgn
          & Hprio & Hsrc & Hdst & Hdata & Hlen & Hid' & Hones & Hlabel
          & Hflag).
    rewrite Hf in Hf'. injection Hf' as <-.
    destruct (parse_can_frame_timestamp _ _ _ _ _ Hf) as (b & t & Hb & Ht & Hts').
    exists ts, id, ret, sz, g, b, t, ID, pg.
    repeat (split; [assumption|]).
    assert (Hkeep : forall col, col ∈ log_columns ->
              df_get df2 i col = df_get df1 i col) by exact Hlog.
    split; [rewrite Hkeep by (unfold log_columns; in_list); exact HO|].
    split; [rewrite Hkeep by (unfold log_columns; in_list); exact HT|].
    split; [rewrite Hkeep by (unfold log_columns; in_list); exact HI|].
    split; [rewrite Hkeep by (unfold log_columns; in_list); exact HR|].
    split; [rewrite Hkeep by (unfold log_columns; in_list); exact HS|].
    split.
    { intros blk Hblk.
      rewrite Hkeep by (unfold log_columns; in_list).
      rewrite HB, Hblk. reflexivity. }
    split; [rewrite Hkeep by (unfold log_columns; in_list); exact HD|].
    repeat (split; [assumption|]).
    rewrite Hlabel, Hflag.
    rewrite !Hcols, !Hclean
      by (apply not_log_column; in_list).
    destruct (pgn_label_row pgn_df pg); split; reflexivity.
Qed.

End LoopSteps.

(** ** Whole runs *)

Lemma decoded_from_ext (pgn_df : list pgn_row) (line : str)
    (row row' : string -> option cell) :
  (forall col, row' col = row col) ->
  decoded_from pgn_df line row -> decoded_from pgn_df line row'.
Proof.
  intros Hext
    (ts & id & ret & sz & g & b & t & ID & pg & H1 & H2 & H3 & H4 & H5 & H6
     & H7 & H8 & H9 & H10 & R1 & R2 & R3 & R4 & R5 & R6 & R7 & R8 & R9 & R10
     & R11 & R12 & R13 & R14 & R15 & R16 & R17 & R18 & R19).
  exists ts, id, ret, sz, g, b, t, ID, pg.
  repeat (split; [assumption|]).
  rewrite !Hext.
  repeat (split; [first [assumption | intros; rewrite Hext; auto]|]).
  assumption.
Qed.

Section Runs.

Variable pgn_df : list pgn_row.

Lemma run_loop_snoc (lines : list str) (line : str) (st : DataFrame * nat) :
  run_loop pgn_df ([], 0%nat) (lines ++ [line]) = Ok st ->
  exists df1 i1,
    run_loop pgn_df ([], 0%nat) lines = Ok (df1, i1)
    /\ loop_body pgn_df (df1, i1) line = Ok st.
Proof.
  rewrite run_loop_app. intros ([df1 i1] & H1 & H2)%bind_Ok.
  exists df1, i1. split; [exact H1|].
  cbn [run_loop] in H2. apply bind_Ok in H2 as (st' & H2 & [= <-]).
  exact H2.
Qed.

(** X9: lines that are added at the end of the input leave the rows that were
    finished before them as they are, and the row index never goes back. *)
Theorem finished_rows_stable (lines more : list str) (df1 df : DataFrame)
    (i1 i : nat) :
  run_loop pgn_df ([], 0%nat) lines = Ok (df1, i1) ->
  run_loop pgn_df ([], 0%nat) (lines ++ more) = Ok (df, i) ->
  (i1 <= i)%nat
  /\ (forall j col, (j < i1)%nat -> df_get df j col = df_get df1 j col).
Proof.
  intros H1. revert df i.
  induction more as [|line more IH] using rev_ind; intros df i H.
  - rewrite app_nil_r, H1 in H. injection H as <- <-. split; [lia | auto].
  - rewrite app_assoc in H.
    apply run_loop_snoc in H as (df2 & i2 & Hrun & Hb).
    destruct (IH _ _ Hrun) as [Hle Hrows].
    destruct (loop_body_step pgn_df _ _ _ _ _ Hb) as (Hstep & Hi & _).
    split; [destruct (passes line); lia|].
    intros j col Hj. rewrite Hstep by lia. apply Hrows, Hj.
Qed.

Lemma run_rows (lines : list str) (df : DataFrame) (i : nat) :
  run_loop pgn_df ([], 0%nat) lines = Ok (df, i) ->
  i = length (filter (fun l => passes l = true) lines)
  /\ (forall j line,
        filter (fun l => passes l = true) lines !! j = Some line ->
        decoded_from pgn_df line (df_get df j)).
Proof.
  revert df i. induction lines as [|line lines IH] using rev_ind;
    intros df i H.
  - injection H as <- <-. split; [reflexivity|].
    intros j line Hj. discriminate Hj.
  - apply run_loop_snoc in H as (df1 & i1 & Hrun & Hb).
    destruct (IH _ _ Hrun) as [Hi1 Hrows].
    pose proof (run_loop_inv pgn_df _ _ _ (loop_inv_init pgn_df) Hrun)
      as (_ & Hclean & _). cbn [fst snd] in Hclean.
    destruct (loop_body_step pgn_df _ _ _ _ _ Hb) as (Hstep & Hi & _).
    rewrite filter_app, filter_cons, filter_nil, length_app.
    destruct (passes line) eqn:Hpass.
    + rewrite decide_True by reflexivity. split; [simpl; lia|].
      intros j l Hj. apply lookup_app_Some in Hj as [Hj|[Hge Hj]].
      * apply (decoded_from_ext _ _ (df_get df1 j)); [|apply Hrows, Hj].
        intros col. apply Hstep. apply lookup_lt_Some in Hj. lia.
      * destruct (j - length (filter (λ l0 : str, passes l0 = true) lines))%nat
          as [|k] eqn:Hk; [|discriminate Hj].
        injection Hj as <-. replace j with i1 by lia.
        eapply loop_body_decoded; eassumption.
    + rewrite decide_False by discriminate. rewrite app_nil_r.
      split; [simpl; lia|].
      intros j l Hj.
      apply (decoded_from_ext _ _ (df_get df1 j)); [|apply Hrows, Hj].
      intros col. apply Hstep. apply lookup_lt_Some in Hj. lia.
Qed.

(** X10: the finished rows are the lines that pass the gate, in the order of
    the input: [i] ends as their number, and row [j] holds the cells
    decoded from the [j]-th of them. *)
Theorem rows_are_passing_lines (lines : list str) (df : DataFrame) (i : nat) :
  run_loop pgn_df ([], 0%nat) lines = Ok (df, i) ->
  i = length (filter (fun l => passes l = true) lines)
  /\ (forall j line,
        filter (fun l => passes l = true) lines !! j = Some line ->
        decoded_from pgn_df line (df_get df j)).
Proof.
  intros H. destruct (run_rows lines df i H) as [Hi Hrows].
  split; [exact Hi | exact Hrows].
Qed.

Lemma run_labels (lines : list str) (df : DataFrame) (i : nat) :
  run_loop pgn_df ([], 0%nat) lines = Ok (df, i) ->
  df.*1 = seq 0 (if leftover lines then S i else i).
Proof.
  revert df i. induction lines as [|line lines IH] using rev_ind;
    intros df i H.
  - injection H as <- <-. reflexivity.
  - apply run_loop_snoc in H as (df1 & i1 & Hrun & Hb).
    specialize (IH _ _ Hrun).
    destruct (loop_body_step pgn_df _ _ _ _ _ Hb) as (_ & Hi & _ & Hlab).
    unfold leftover. rewrite filter_app, filter_cons, filter_nil.
    destruct (has_marker line) eqn:Hm.
    + rewrite decide_True by reflexivity. rewrite last_snoc.
      rewrite Hlab, labels_with_seq
        by (rewrite IH; destruct (leftover lines); auto).
      subst i. destruct (passes line); reflexivity.
    + rewrite decide_False by discriminate. rewrite app_nil_r.
      assert (Hp : passes line = false) by (unfold passes; rewrite Hm; reflexivity).
      rewrite Hp in Hi. subst i. rewrite Hlab. exact IH.
Qed.

(** X11: the exported frame has the finished rows [0 .. i-1], and one more row
    exactly when the last line with the marker did not pass the gate. *)
Theorem exported_row_labels (lines : list str) (df : DataFrame) (i : nat) :
  run_loop pgn_df ([], 0%nat) lines = Ok (df, i) ->
  df.*1 = seq 0 (if leftover lines then S i else i).
Proof.
  intros H. rewrite (run_labels lines df i H). reflexivity.
Qed.

Lemma run_loop_Ok_iff (st : DataFrame * nat) (lines : list str) :
  (exists st', run_loop pgn_df st lines = Ok st')
  <-> Forall (fun l => has_marker l = true -> ~ search_fails l) lines.
Proof.
  revert st. induction lines as [|line lines IH]; intros st; cbn [run_loop].
  - split; [constructor | eauto].
  - rewrite Forall_cons, <- (loop_body_Ok_iff pgn_df st line). split.
    + intros [st' (st1 & H1 & H2)%bind_Ok]. split; [eauto|].
      apply (IH st1). eauto.
    + intros [[st1 H1] H2]. rewrite H1, bind_Ok_l. apply IH, H2.
Qed.

End Runs.

(** * The conversions of the columns (lines 176, 186, 261-267) *)

Lemma sequenceE_Converted {A} (l : list (ExportResult A)) (t : list A) :
  sequenceE l = Converted t <-> l = Converted <$> t.
Proof.
  revert t. induction l as [|r l IH]; intros t; cbn [sequenceE].
  - split.
    + intros [= <-]. reflexivity.
    + destruct t; [reflexivity | discriminate].
  - destruct r as [a| |e].
    + split.
      * destruct (sequenceE l) as [t'| |e] eqn:E; try discriminate.
        intros [= <-]. rewrite (proj1 (IH t') eq_refl). reflexivity.
      * destruct t as [|a' t]; [discriminate|].
        intros [= -> Hl]. rewrite (proj2 (IH t) Hl). reflexivity.
    + split; [discriminate | destruct t; discriminate].
    + split; [discriminate | destruct t; discriminate].
Qed.

Lemma sequenceE_TypeError {A} (t : list A) (rest : list (ExportResult A)) :
  sequenceE ((Converted <$> t) ++ TypeError :: rest) = TypeError.
Proof. induction t as [|a t IH]; cbn; [reflexivity | rewrite IH; reflexivity]. Qed.

Lemma all_Converted {A} (l : list (ExportResult A)) :
  (forall k x, l !! k = Some x -> exists a, x = Converted a) ->
  exists t, l = Converted <$> t.
Proof.
  induction l as [|r l IH]; intros H.
  - exists []. reflexivity.
  - destruct (H 0%nat r eq_refl) as [a ->].
    destruct IH as [t ->]; [intros k x Hk; apply (H (S k) x Hk)|].
    exists (a :: t). reflexivity.
Qed.

(** In a frame whose labels are [a, a+1, ...], the [k]-th item of a
    column is the cell of row [a + k]. *)
Lemma df_column_lookup_from (df : DataFrame) (col : string) (a n k : nat) :
  df.*1 = seq a n -> (k < n)%nat ->
  df_column df col !! k = Some (df_get df (a + k) col).
Proof.
  revert a n k. induction df as [|[j r] df IH]; intros a n k Hlab Hk.
  - destruct n; [lia | discriminate Hlab].
  - destruct n as [|n]; [lia|]. cbn in Hlab. injection Hlab as -> Hlab.
    unfold df_column, df_get. rewrite fmap_cons. cbn [df_row].
    destruct k as [|k].
    + rewrite Nat.add_0_r, decide_True by reflexivity. reflexivity.
    + rewrite decide_False by lia. cbn [lookup list_lookup].
      replace (a + S k)%nat with (S a + k)%nat by lia.
      apply (IH (S a) n k Hlab). lia.
Qed.

Lemma df_column_length (df : DataFrame) (col : string) :
  length (df_column df col) = length df.*1.
Proof. unfold df_column. rewrite !length_fmap. reflexivity. Qed.

Section Columns.

Variable pgn_df : list pgn_row.

Lemma decoded_ID_converts (line : str) (row : string -> option cell) :
  decoded_from pgn_df line row ->
  exists n, int_base16 (row "ID"%string) = Converted n.
Proof.
  intros (ts & id & ret & sz & g & b & t & ID & pg & _ & _ & _ & _ & _ & Hacc
          & _ & _ & HID & Hpg & _ & _ & _ & _ & _ & _ & _ & _ & _ & _ & _ & _
          & _ & _ & _ & Hcell & _).
  pose proof Hacc as [Hh Hlen].
  destruct (int_slice _ 16 18 Hh) as (p & Hp & _); [lia|].
  destruct (int_slice _ 18 20 Hh) as (s & Hs & _); [lia|].
  destruct (build_ID_value _ _ _ _ _ _ Hp Hpg Hs) as (ID' & HID' & Hv).
  rewrite HID in HID'. injection HID' as <-.
  rewrite Hcell. eexists. unfold int_base16. unfold CanIdentifier in Hv.
  rewrite Hv. reflexivity.
Qed.

Lemma decoded_DataBytes_converts (line : str) (row : string -> option cell) :
  decoded_from pgn_df line row ->
  exists l, HexStrToListOfInts_item (row "DataBytes"%string) = Converted l
    /\ length l = 8%nat /\ Forall (fun b => (0 <= b < 256)%Z) l.
Proof.
  intros (ts & id & ret & sz & g & b & t & ID & pg & _ & _ & _ & _ & _ & Hacc
          & _ & _ & _ & _ & _ & _ & _ & _ & _ & _ & _ & _ & _ & _ & _ & _
          & _ & Hcell & _).
  pose proof Hacc as [Hh Hlen].
  destruct (HexStrToListOfInts_range (slice (remove_spaces g) 22 38))
    as (l & Hl & Ll & Bl); [apply slice_hex, Hh|].
  rewrite slice_length in Ll by lia.
  exists l. rewrite Hcell. unfold HexStrToListOfInts_item. rewrite Hl.
  split; [reflexivity|]. split; [exact Ll | exact Bl].
Qed.

(** X12: when the last line with the marker passes the gate (or no line has
    the marker), the two conversions succeed on the exported frame: one
    identifier for each finished row, and for each row the eight bytes of
    its [DataBytes]. *)
Theorem columns_convert (lines : list str) (df : DataFrame) (i : nat) :
  run_loop pgn_df ([], 0%nat) lines = Ok (df, i) ->
  leftover lines = false ->
  exists ids bytes,
    ID_as_int df = Converted ids
    /\ length ids = i
    /\ ColumnHexToListOfInts (df_column df "DataBytes") = Converted bytes
    /\ length bytes = i
    /\ Forall (fun l => length l = 8%nat
                        /\ Forall (fun b => (0 <= b < 256)%Z) l) bytes.
Proof.
  intros Hrun Hleft.
  pose proof (run_labels pgn_df _ _ _ Hrun) as Hlab.
  rewrite Hleft in Hlab.
  destruct (run_rows pgn_df _ _ _ Hrun) as [Hi Hrows].
  assert (Hdec : forall k, (k < i)%nat ->
            exists line, decoded_from pgn_df line (df_get df k)).
  { intros k Hk. rewrite Hi in Hk.
    destruct (lookup_lt_is_Some_2 _ _ Hk) as [line Hline].
    exists line. apply Hrows, Hline. }
  assert (Hcol : forall col k, (k < i)%nat ->
            df_column df col !! k = Some (df_get df k col)).
  { intros col k Hk. apply (df_column_lookup_from df col 0 i k Hlab Hk). }
  assert (Hlen : forall col, length (df_column df col) = i).
  { intros col. rewrite df_column_length, Hlab, length_seq. reflexivity. }
  destruct (all_Converted (int_base16 <$> df_column df "ID")) as [ids Hids].
  { intros k x Hk. rewrite list_lookup_fmap in Hk.
    assert (Hlt : (k < i)%nat).
    { rewrite <- (Hlen "ID"%string).
      destruct (df_column df "ID" !! k) eqn:E; [|discriminate Hk].
      eapply lookup_lt_Some, E. }
    rewrite Hcol in Hk by exact Hlt. injection Hk as <-.
    destruct (Hdec k Hlt) as [line Hd].
    apply (decoded_ID_converts line _ Hd). }
  destruct (all_Converted
              (HexStrToListOfInts_item <$> df_column df "DataBytes"))
    as [bytes Hbytes].
  { intros k x Hk. rewrite list_lookup_fmap in Hk.
    assert (Hlt : (k < i)%nat).
    { rewrite <- (Hlen "DataBytes"%string).
      destruct (df_column df "DataBytes" !! k) eqn:E; [|discriminate Hk].
      eapply lookup_lt_Some, E. }
    rewrite Hcol in Hk by exact Hlt. injection Hk as <-.
    destruct (Hdec k Hlt) as [line Hd].
    destruct (decoded_DataBytes_converts line _ Hd) as (l & Hl & _). eauto. }
  exists ids, bytes.
  split; [apply sequenceE_Converted, Hids|].
  split.
  { rewrite <- (Hlen "ID"%string).
    rewrite <- (length_fmap int_base16), Hids, length_fmap. reflexivity. }
  split; [apply sequenceE_Converted, Hbytes|].
  assert (Lb : length bytes = i).
  { rewrite <- (Hlen "DataBytes"%string).
    rewrite <- (length_fmap HexStrToListOfInts_item), Hbytes, length_fmap.
    reflexivity. }
  split; [exact Lb|].
  apply Forall_lookup. intros k l Hk.
  assert (Hlt : (k < i)%nat) by (rewrite <- Lb; eapply lookup_lt_Some, Hk).
  apply (f_equal (fun x => x !! k)) in Hbytes.
  rewrite !list_lookup_fmap, Hcol, Hk in Hbytes by exact Hlt.
  cbn in Hbytes. injection Hbytes as Hb.
  destruct (Hdec k Hlt) as [line Hd].
  destruct (decoded_DataBytes_converts line _ Hd) as (l' & Hl' & L8 & B8).
  rewrite Hl' in Hb. injection Hb as <-. split; assumption.
Qed.

(** X13: when the last line with the marker did not pass the gate, the row
    that it left has no identifier and no payload: the two conversions
    raise [TypeError] on the exported frame. *)
Theorem columns_type_error (lines : list str) (df : DataFrame) (i : nat) :
  run_loop pgn_df ([], 0%nat) lines = Ok (df, i) ->
  leftover lines = true ->
  ID_as_int df = TypeError
  /\ ColumnHexToListOfInts (df_column df "DataBytes") = TypeError.
Proof.
  intros Hrun Hleft.
  pose proof (run_labels pgn_df _ _ _ Hrun) as Hlab.
  rewrite Hleft in Hlab.
  destruct (run_rows pgn_df _ _ _ Hrun) as [Hi Hrows].
  pose proof (run_loop_inv pgn_df _ _ _ (loop_inv_init pgn_df) Hrun)
    as (_ & Hclean & _). cbn [fst snd] in Hclean.
  assert (Hdec : forall k, (k < i)%nat ->
            exists line, decoded_from pgn_df line (df_get df k)).
  { intros k Hk. rewrite Hi in Hk.
    destruct (lookup_lt_is_Some_2 _ _ Hk) as [line Hline].
    exists line. apply Hrows, Hline. }
  assert (Hcol : forall col k, (k < S i)%nat ->
            df_column df col !! k = Some (df_get df k col)).
  { intros col k Hk. apply (df_column_lookup_from df col 0 (S i) k Hlab Hk). }
  assert (Hlen : forall col, length (df_column df col) = S i).
  { intros col. rewrite df_column_length, Hlab, length_seq. reflexivity. }
  assert (Hgen : forall {A} (f : option cell -> ExportResult A) col,
            col ∉ log_columns ->
            f None = TypeError ->
            (forall k, (k < i)%nat -> exists a,
                 f (df_get df k col) = Converted a) ->
            sequenceE (f <$> df_column df col) = TypeError).
  { intros A f col Hnl HNone Hok.
    rewrite <- (take_drop i (df_column df col)), fmap_app.
    destruct (all_Converted (f <$> take i (df_column df col))) as [t ->].
    { intros k x Hk. rewrite list_lookup_fmap in Hk.
      destruct (take i (df_column df col) !! k) as [c|] eqn:E;
        [|discriminate Hk].
      pose proof (lookup_lt_Some _ _ _ E) as Hlt.
      rewrite length_take in Hlt.
      rewrite lookup_take_lt in E by lia. rewrite Hcol in E by lia.
      injection E as <-. injection Hk as <-. apply Hok. lia. }
    destruct (drop i (df_column df col)) as [|c rest] eqn:E.
    { apply (f_equal length) in E. rewrite length_drop, Hlen in E.
      simpl in E. lia. }
    assert (Hc : c = None).
    { pose proof (lookup_drop (df_column df col) i 0) as Hd.
      rewrite E, Nat.add_0_r, Hcol in Hd by lia.
      injection Hd as ->. apply Hclean, Hnl. }
    subst c. rewrite fmap_cons, HNone. apply sequenceE_TypeError. }
  split.
  - apply Hgen; [apply not_log_column; in_list | reflexivity|].
    intros k Hk. destruct (Hdec k Hk) as [line Hd].
    apply (decoded_ID_converts line _ Hd).
  - apply Hgen; [apply not_log_column; in_list | reflexivity|].
    intros k Hk. destruct (Hdec k Hk) as [line Hd].
    destruct (decoded_DataBytes_converts line _ Hd) as (l & Hl & _). eauto.
Qed.

End Columns.

(** * Further properties of the decoder and of the searches *)

Lemma slice_take (s : str) (a b n : nat) :
  (a <= b <= n)%nat -> slice (take n s) a b = slice s a b.
Proof.
  intros Hab. unfold slice.
  rewrite !take_drop_commute, take_take.
  replace ((a + (b - a)) `min` n)%nat with (a + (b - a))%nat by lia.
  reflexivity.
Qed.

(** X14: the decoder reads the first 38 digits of the payload and nothing
    after them: digits beyond the 19th byte change no decoded cell. *)
Theorem parse_can_frame_first_38 (pgn_df : list pgn_row) (df : DataFrame)
    (i : nat) (dataBytes_hex : str) :
  parse_can_frame pgn_df df i dataBytes_hex
  = parse_can_frame pgn_df df i (take 38 dataBytes_hex).
Proof.
  unfold parse_can_frame, pgn_hex_of.
  rewrite !(slice_take dataBytes_hex) by lia. reflexivity.
Qed.

(** X15: the cells of a finished row have fixed widths: two digits for the
    echo byte, the priority, the source and the destination, six for the
    PGN, sixteen for the payload, all of them digits of [[0-9A-F]]. *)
Theorem decoded_cell_widths (pgn_df : list pgn_row) (lines : list str)
    (df : DataFrame) (i j : nat) :
  run_loop pgn_df ([], 0%nat) lines = Ok (df, i) ->
  (j < i)%nat ->
  forall col w,
    (col, w) ∈ [("echoByte", 2); ("PGN", 6); ("Priority", 2); ("Source", 2);
                ("Destination", 2); ("DataBytes", 16)]%string%nat ->
    exists s,
      df_get df j col = Some (CStr s)
      /\ length s = w
      /\ Forall (fun c => is_HEX c = true) s.
Proof.
  intros Hrun Hj col w Hin.
  destruct (run_rows pgn_df _ _ _ Hrun) as [Hi Hrows].
  rewrite Hi in Hj. destruct (lookup_lt_is_Some_2 _ _ Hj) as [line Hline].
  destruct (Hrows j line Hline)
    as (ts & id & ret & sz & g & b & t & ID & pg & _ & _ & _ & _ & _ & Hacc
        & _ & _ & _ & _ & _ & _ & _ & _ & _ & _ & _ & _ & Hecho & Hpgn
        & Hprio & Hsrc & Hdst & Hdata & _).
  pose proof Hacc as [Hh Hlen].
  repeat (apply elem_of_cons in Hin as [[= -> ->]|Hin]);
    [..|by apply elem_of_nil in Hin];
    eexists; (split; [eassumption|]);
    unfold pgn_hex_of;
    rewrite ?length_app, !slice_length by lia;
    (split; [reflexivity|]);
    rewrite ?Forall_app; repeat split; apply slice_hex, Hh.
Qed.

(** ** The searches of lines 66-77 *)

Lemma greedy_dot_then_last (pat s pre post : str) (k : nat) :
  greedy_dot_then pat s = Some k ->
  s = pre ++ pat ++ post ->
  Forall (fun c => is_newline c = false) pre ->
  (length pre <= k)%nat.
Proof.
  revert k pre. induction s as [|c s IH]; intros k pre Hk Hs Hnl.
  - destruct pre; [simpl; lia | discriminate Hs].
  - destruct pre as [|c' pre]; [simpl; lia|].
    cbn [app] in Hs. injection Hs as <- Hs.
    apply Forall_cons in Hnl as [Hc Hnl].
    cbn [greedy_dot_then] in Hk. rewrite Hc in Hk.
    destruct (greedy_dot_then pat s) as [k'|] eqn:E.
    + injection Hk as <-. specialize (IH k' pre eq_refl Hs Hnl).
      simpl. lia.
    + exfalso.
      assert (Hsome : is_Some (greedy_dot_then pat s)).
      { apply greedy_dot_then_occurs. exists pre, post. split; assumption. }
      rewrite E in Hsome. destruct Hsome as [x Hx]. discriminate Hx.
Qed.

(** X16: the timestamp of line 66 is the text before the last blank and
    opening parenthesis of the line: it holds no newline, the pair comes
    right after it, and no such pair starts further on the line. *)
Theorem re_search_timestamp_last (line ts : str) :
  re_search_timestamp line = Some ts ->
  (exists post, line = ts ++ lit " (" ++ post)
  /\ Forall (fun c => is_newline c = false) ts
  /\ (forall pre post,
        line = pre ++ lit " (" ++ post ->
        Forall (fun c => is_newline c = false) pre ->
        (length pre <= length ts)%nat).
Proof.
  unfold re_search_timestamp. intros H.
  destruct (greedy_dot_then (lit " (") line) as [k|] eqn:Hk;
    [|discriminate H].
  injection H as <-.
  destruct (greedy_dot_then_Some _ _ _ Hk) as (post & Hline & Hnl).
  split; [exists post; exact Hline|]. split; [exact Hnl|].
  intros pre post' Hpre Hnl'.
  pose proof (greedy_dot_then_last _ _ _ _ _ Hk Hpre Hnl') as Hle.
  rewrite length_take.
  assert (length pre <= length line)%nat
    by (rewrite Hpre, length_app; lia).
  lia.
Qed.

Lemma re_search_timestamp_last_witness :
  re_search_timestamp (lit "12 (a) Rx (b) x") = Some (lit "12 (a) Rx")
  /\ (exists post, lit "12 (a) Rx (b) x" = lit "12 (a) Rx" ++ lit " (" ++ post)
  /\ Forall (fun c => is_newline c = false) (lit "12 (a) Rx")
  /\ (forall pre post,
        lit "12 (a) Rx (b) x" = pre ++ lit " (" ++ post ->
        Forall (fun c => is_newline c = false) pre ->
        (length pre <= length (lit "12 (a) Rx"))%nat).
Proof.
  split; [reflexivity|].
  apply (re_search_timestamp_last (lit "12 (a) Rx (b) x")). reflexivity.
Defined.

Lemma find_first (pat s pre post : str) (k : nat) :
  find pat s = Some k -> s = pre ++ pat ++ post -> (k <= length pre)%nat.
Proof.
  revert k pre. induction s as [|c s IH]; intros k pre Hk Hs.
  - cbn [find] in Hk. destruct (prefixb pat []); [|discriminate Hk].
    injection Hk as <-. lia.
  - rewrite find_unfold in Hk.
    destruct (prefixb pat (c :: s)) eqn:E; [injection Hk as <-; lia|].
    destruct pre as [|c' pre].
    + exfalso. assert (prefixb pat (c :: s) = true)
        by (apply prefixb_spec; exists post; exact Hs).
      congruence.
    + cbn [app] in Hs. injection Hs as <- Hs.
      destruct (find pat s) as [k'|]; [|discriminate Hk].
      injection Hk as <-. specialize (IH k' pre eq_refl Hs). simpl. lia.
Qed.

Lemma take_while_split (f : ascii -> bool) (s : str) :
  exists rest,
    s = take_while f s ++ rest
    /\ (forall c, rest !! 0%nat = Some c -> f c = false).
Proof.
  induction s as [|c s (rest & Hs & Hrest)]; cbn [take_while].
  - exists []. split; [reflexivity | intros c H; discriminate H].
  - destruct (f c) eqn:E.
    + exists rest. split; [cbn [app]; f_equal; exact Hs | exact Hrest].
    + exists (c :: s). split; [reflexivity|].
      intros c' [= <-]. exact E.
Qed.

(** X17: a field search gives the longest run of characters of the class that
    follows the first occurrence of the prefix in the line, whatever
    precedes the prefix there. *)
Theorem re_search_lit_class_first (prefix : str) (cls : ascii -> bool)
    (line v : str) :
  re_search_lit_class prefix cls line = Some v ->
  exists pre post,
    line = pre ++ prefix ++ v ++ post
    /\ Forall (fun c => cls c = true) v
    /\ (forall c, post !! 0%nat = Some c -> cls c = false)
    /\ (forall pre' post',
          line = pre' ++ prefix ++ post' ->
          (length pre <= length pre')%nat).
Proof.
  unfold re_search_lit_class. intros H.
  destruct (find prefix line) as [k|] eqn:Hk; [|discriminate H].
  injection H as <-.
  destruct (find_Some _ _ _ Hk) as (post0 & Hline & Hle).
  assert (Hdrop : drop (k + length prefix) line = post0).
  { rewrite Hline at 1. rewrite app_assoc, drop_app_length'; [reflexivity|].
    rewrite length_app, length_take. lia. }
  rewrite Hdrop.
  destruct (take_while_split cls post0) as (rest & Hpost & Hrest).
  exists (take k line), rest.
  split; [rewrite <- Hpost; exact Hline|].
  split; [apply take_while_Forall|]. split; [exact Hrest|].
  intros pre' post' Hpre'.
  pose proof (find_first _ _ _ _ _ Hk Hpre'). rewrite length_take. lia.
Qed.

Lemma re_search_lit_class_first_witness :
  re_search_lit_class (lit "ID = ") is_digit (lit "GUID = 12 ID = 7")
  = Some (lit "12")
  /\ exists pre post,
       lit "GUID = 12 ID = 7" = pre ++ lit "ID = " ++ lit "12" ++ post
       /\ Forall (fun c => is_digit c = true) (lit "12")
       /\ (forall c, post !! 0%nat = Some c -> is_digit c = false)
       /\ (forall pre' post',
             lit "GUID = 12 ID = 7" = pre' ++ lit "ID = " ++ post' ->
             (length pre <= length pre')%nat).
Proof.
  split; [reflexivity|].
  apply (re_search_lit_class_first (lit "ID = ") is_digit
           (lit "GUID = 12 ID = 7")).
  reflexivity.
Defined.

(** * Sample runs *)

Lemma run_exists (pgn_df : list pgn_row) (lines : list str) :
  Forall (fun l => has_marker l = true -> ~ search_fails l) lines ->
  exists df i, run_loop pgn_df ([], 0%nat) lines = Ok (df, i).
Proof.
  intros H. apply (run_loop_Ok_iff pgn_df ([], 0%nat)) in H as [[df i] H].
  eauto.
Qed.

Lemma example_line_searches :
  has_marker example_line = true -> ~ search_fails example_line.
Proof. intros _ [H|[H|[H|[H|H]]]]; discriminate H. Qed.

Lemma short_line_searches :
  has_marker short_line = true -> ~ search_fails short_line.
Proof. intros _ [H|[H|[H|[H|H]]]]; discriminate H. Qed.

Lemma no_blk_line_searches :
  has_marker no_blk_line = true -> ~ search_fails no_blk_line.
Proof. intros _ [H|[H|[H|[H|H]]]]; discriminate H. Qed.

Lemma finished_rows_stable_witness :
  exists df1 i1 df i,
    run_loop two_labels ([], 0%nat) [example_line] = Ok (df1, i1)
    /\ run_loop two_labels ([], 0%nat)
         ([example_line] ++ [short_line; no_blk_line]) = Ok (df, i)
    /\ (i1 <= i)%nat
    /\ (forall j col, (j < i1)%nat -> df_get df j col = df_get df1 j col).
Proof.
  destruct (run_exists two_labels [example_line]) as (df1 & i1 & H1).
  { repeat constructor. exact example_line_searches. }
  destruct (run_exists two_labels
              ([example_line] ++ [short_line; no_blk_line]))
    as (df & i & H).
  { repeat constructor;
      [exact example_line_searches | exact short_line_searches
       | exact no_blk_line_searches]. }
  exists df1, i1, df, i. split; [exact H1|]. split; [exact H|].
  exact (finished_rows_stable two_labels [example_line]
           [short_line; no_blk_line] df1 df i1 i H1 H).
Defined.

Lemma rows_are_passing_lines_witness :
  exists df i,
    run_loop two_labels ([], 0%nat) [example_line; short_line; no_blk_line]
    = Ok (df, i)
    /\ i = length (filter (fun l => passes l = true)
                     [example_line; short_line; no_blk_line])
    /\ (forall j line,
          filter (fun l => passes l = true)
            [example_line; short_line; no_blk_line] !! j = Some line ->
          decoded_from two_labels line (df_get df j)).
Proof.
  destruct (run_exists two_labels [example_line; short_line; no_blk_line])
    as (df & i & H).
  { repeat constructor;
      [exact example_line_searches | exact short_line_searches
       | exact no_blk_line_searches]. }
  exists df, i. split; [exact H|].
  exact (rows_are_passing_lines two_labels _ df i H).
Defined.

Lemma exported_row_labels_witness :
  exists df i,
    run_loop two_labels ([], 0%nat) [example_line; short_line] = Ok (df, i)
    /\ df.*1 = seq 0 (if leftover [example_line; short_line]
                      then S i else i).
Proof.
  destruct (run_exists two_labels [example_line; short_line])
    as (df & i & H).
  { repeat constructor;
      [exact example_line_searches | exact short_line_searches]. }
  exists df, i. split; [exact H|].
  exact (exported_row_labels two_labels _ df i H).
Defined.

Lemma columns_convert_witness :
  exists df i,
    run_loop two_labels ([], 0%nat) [short_line; example_line] = Ok (df, i)
    /\ leftover [short_line; example_line] = false
    /\ exists ids bytes,
         ID_as_int df = Converted ids
         /\ length ids = i
         /\ ColumnHexToListOfInts (df_column df "DataBytes")
            = Converted bytes
         /\ length bytes = i
         /\ Forall (fun l => length l = 8%nat
                             /\ Forall (fun b => (0 <= b < 256)%Z) l) bytes.
Proof.
  destruct (run_exists two_labels [short_line; example_line])
    as (df & i & H).
  { repeat constructor;
      [exact short_line_searches | exact example_line_searches]. }
  exists df, i. split; [exact H|]. split; [reflexivity|].
  exact (columns_convert two_labels _ df i H eq_refl).
Defined.

Lemma columns_type_error_witness :
  exists df i,
    run_loop two_labels ([], 0%nat) [example_line; short_line] = Ok (df, i)
    /\ leftover [example_line; short_line] = true
    /\ ID_as_int df = TypeError
    /\ ColumnHexToListOfInts (df_column df "DataBytes") = TypeError.
Proof.
  destruct (run_exists two_labels [example_line; short_line])
    as (df & i & H).
  { repeat constructor;
      [exact example_line_searches | exact short_line_searches]. }
  exists df, i. split; [exact H|]. split; [reflexivity|].
  exact (columns_type_error two_labels _ df i H eq_refl).
Defined.

Lemma decoded_cell_widths_witness :
  exists df,
    run_loop two_labels ([], 0%nat) [example_line] = Ok (df, 1%nat)
    /\ (0 < 1)%nat
    /\ forall col w,
         (col, w) ∈ [("echoByte", 2); ("PGN", 6); ("Priority", 2);
                     ("Source", 2); ("Destination", 2);
                     ("DataBytes", 16)]%string%nat ->
         exists s,
           df_get df 0 col = Some (CStr s)
           /\ length s = w
           /\ Forall (fun c => is_HEX c = true) s.
Proof.
  destruct (example_line_run two_labels) as [df H].
  exists df. split; [exact H|]. split; [lia|].
  exact (decoded_cell_widths two_labels [example_line] df 1 0 H
           ltac:(lia)).
Defined.
